(** * Falcon 9 launch data: the API collector and the wiki scraper

    A shallow embedding of [falcon9_data_collection.py] (class
    [SpaceXDataExtractor]) and [falcon9_data_wrangling.py] (class
    [Falcon9Scraper]), and the properties of their record-normalisation
    pipelines.

    Python values are kept dynamic where the code tests or prints them
    (ids, look-up results), and typed where the code relies on their shape
    (the listing, the date).  Library calls whose behaviour is not in the
    repository (the HTTP transport, the HTML parser, the timestamp parser,
    the file system) are inputs of the model. *)

From Stdlib Require Import String Ascii List Bool Arith ZArith Lia DecimalString.
Import ListNotations.
Local Open Scope string_scope.
Local Open Scope list_scope.

(* ================================================================== *)
(** * Python values, exceptions, logging *)
(* ================================================================== *)

Module Py.

(** A scalar Python value as [response.json()] produces it.  A float is
    kept as its [repr] text: the pipelines store and print floats and never
    compute with them. *)
Inductive Scalar : Type :=
| PyNone
| PyBool (b : bool)
| PyInt (z : Z)
| PyFloat (repr : string)
| PyStr (s : string).

(** [bool(v)]: the test of [if v:]. *)
Definition truthy (v : Scalar) : bool :=
  match v with
  | PyNone => false
  | PyBool b => b
  | PyInt z => negb (z =? 0)%Z
  | PyFloat r => negb ((r =? "0.0") || (r =? "-0.0"))
  | PyStr s => negb (s =? "")
  end.

(** [str(v)], also what an f-string field [{v}] prints. *)
Definition str (v : Scalar) : string :=
  match v with
  | PyNone => "None"
  | PyBool true => "True"
  | PyBool false => "False"
  | PyInt z => NilZero.string_of_int (Z.to_int z)
  | PyFloat r => r
  | PyStr s => s
  end.

(** [v != s] for a string literal [s]: only an equal string is equal. *)
Definition ne_str (v : Scalar) (s : string) : bool :=
  match v with
  | PyStr t => negb (t =? s)
  | _ => true
  end.

(** A JSON object whose values are scalars, in key order. *)
Definition Dict : Type := list (string * Scalar).

(** [d.get(key)]: the value of the key, [None] when the key is absent. *)
Fixpoint get (d : Dict) (key : string) : Scalar :=
  match d with
  | [] => PyNone
  | (k, v) :: d' => if k =? key then v else get d' key
  end.

Inductive exn : Type :=
| KeyError (msg : string)
| ValueError (msg : string)
| IndexError (msg : string)
| AttributeError (msg : string)
| TypeError (msg : string)
| OSError (msg : string).

Definition exn_str (e : exn) : string :=
  match e with
  | KeyError m | ValueError m | IndexError m | AttributeError m
  | TypeError m | OSError m => m
  end.

Inductive outcome (A : Type) : Type :=
| Returns (a : A)
| Raises (e : exn).
Arguments Returns {A} a.
Arguments Raises {A} e.

Inductive LogLevel : Type := INFO | ERROR.

Record LogRecord : Type := { level : LogLevel; message : string }.

(** What a run can touch outside its own objects: the root logger's
    output and the file system.  [write_error path] is the error the
    operating system answers to a write at [path], if any; a file holds
    the table written to it (its CSV text is not modelled). *)
Record World (T : Type) : Type := {
  logs : list LogRecord;
  write_error : string -> option exn;
  files : list (string * T)
}.
Arguments logs {T} w.
Arguments write_error {T} w path.
Arguments files {T} w.

(** Computations that return or raise, over a world that keeps what was
    logged and written before a raise. *)
Definition M (T A : Type) : Type := World T -> outcome A * World T.

Definition ret {T A} (a : A) : M T A := fun w => (Returns a, w).

Definition raise {T A} (e : exn) : M T A := fun w => (Raises e, w).

Definition bind {T A B} (m : M T A) (f : A -> M T B) : M T B :=
  fun w =>
    match m w with
    | (Returns a, w') => f a w'
    | (Raises e, w') => (Raises e, w')
    end.

(** [try: m  except Exception as error: handler(error)] *)
Definition try_except {T A} (m : M T A) (handler : exn -> M T A) : M T A :=
  fun w =>
    match m w with
    | (Returns a, w') => (Returns a, w')
    | (Raises e, w') => handler e w'
    end.

(** The world after one more record was logged. *)
Definition logged {T} (lvl : LogLevel) (msg : string) (w : World T)
  : World T :=
  {| logs := logs w ++ [{| level := lvl; message := msg |}];
     write_error := write_error w;
     files := files w |}.

(** The world after several more records were logged. *)
Definition add_logs {T} (records : list LogRecord) (w : World T) : World T :=
  {| logs := logs w ++ records;
     write_error := write_error w;
     files := files w |}.

(** [w'] is [w] with more records at the end of the log, and the same file
    system. *)
Definition only_logged {T} (w w' : World T) : Prop :=
  write_error w' = write_error w
  /\ files w' = files w
  /\ exists records, logs w' = logs w ++ records.

(** A computation that, whatever it returns or raises, only logs. *)
Definition logs_only {T A} (m : M T A) : Prop :=
  forall w, only_logged w (snd (m w)).

Definition log {T} (lvl : LogLevel) (msg : string) : M T unit :=
  fun w => (Returns tt, logged lvl msg w).

Definition logging_info {T} (msg : string) : M T unit := log INFO msg.
Definition logging_error {T} (msg : string) : M T unit := log ERROR msg.

(** [df.to_csv(filename, index=False)] *)
Definition to_csv {T} (df : T) (filename : string) : M T unit :=
  fun w =>
    match write_error w filename with
    | Some e => (Raises e, w)
    | None =>
        (Returns tt,
         {| logs := logs w;
            write_error := write_error w;
            files := (filename, df) :: files w |})
    end.

(** A [for x in xs:] loop whose body updates the object [s]. *)
Fixpoint for_each {T S A} (xs : list A) (body : A -> S -> M T S) (s : S)
  : M T S :=
  match xs with
  | [] => ret s
  | x :: xs' => bind (body x s) (for_each xs' body)
  end.

(** A world in which nothing was logged or written and every write
    succeeds. *)
Definition quiet_world {T} : World T :=
  {| logs := []; write_error := fun _ => None; files := [] |}.

(** A world whose file system refuses every write. *)
Definition read_only_world {T} : World T :=
  {| logs := [];
     write_error := fun path =>
       Some (OSError ("[Errno 30] Read-only file system: " ++ path));
     files := [] |}.

Module Notations.
  Declare Scope py_scope.
  Delimit Scope py_scope with py.
  Notation "x <- m ;; k" := (bind m (fun x => k))
    (at level 61, m at next level, right associativity) : py_scope.
  Notation "m ;;; k" := (bind m (fun _ => k))
    (at level 61, right associativity) : py_scope.
End Notations.

(** The network as the collectors see it through [requests.get]: the
    decoded body of a URL, or the [RequestException] the transport (or
    [raise_for_status]) raised. *)
Inductive Response (A : Type) : Type :=
| Ok (body : A)
| RequestException (msg : string).
Arguments Ok {A} body.
Arguments RequestException {A} msg.

End Py.

Import Py.
Import Py.Notations.
Local Open Scope py_scope.

(* ================================================================== *)
(** * falcon9_data_wrangling.py *)
(* ================================================================== *)

Module Falcon9Scraper.

Definition URL : string :=
  "https://en.wikipedia.org/wiki/List_of_Falcon_9_launches".

(** ** The parsed page

    BeautifulSoup is not part of the repository; the page is given by the
    answers to the queries the code makes: [soup.find("table", {"class":
    "wikitable"})] is [None] or a table, [table.find_all("tr")] is the list
    of its rows, [row.find_all(["td", "th"])] the list of a row's cells, and
    [cell.get_text(separator=" ", strip=True)] a cell's text. *)
Inductive CellTag : Type := td | th.

(** A character of a text is one character of the string: [len] is
    [String.length]. *)
Record Cell : Type := { tag : CellTag; get_text : string }.

Definition Tr : Type := list Cell.

Definition Table : Type := list Tr.

Definition is_th (c : Cell) : bool :=
  match tag c with th => true | td => false end.

(** ** Dictionaries and frames of the scraper *)

(** A row dictionary: header name to cell text or [None], in insertion
    order, one entry per key. *)
Definition RowDict : Type := list (string * option string).

(** [d[k] = v]: a present key keeps its place and takes the new value. *)
Fixpoint setitem (d : RowDict) (k : string) (v : option string) : RowDict :=
  match d with
  | [] => [(k, v)]
  | (k', v') :: d' =>
      if k' =? k then (k', v) :: d' else (k', v') :: setitem d' k v
  end.

(** [dict(pairs)] *)
Definition dict (pairs : list (string * option string)) : RowDict :=
  fold_left (fun d kv => setitem d (fst kv) (snd kv)) pairs [].

(** [zip(a, b)] stops at the shorter argument. *)
Definition zip {A B} (a : list A) (b : list B) : list (A * B) := combine a b.

Fixpoint lookup (d : RowDict) (k : string) : option (option string) :=
  match d with
  | [] => None
  | (k', v) :: d' => if k' =? k then Some v else lookup d' k
  end.

(** [sep.join(parts)] *)
Definition join (sep : string) (parts : list string) : string :=
  String.concat sep parts.

(** A frame of the scraper: its column labels and, per row, one cell per
    column ([None] is a missing value). *)
Record DataFrame : Type := {
  columns : list string;
  values : list (list (option string))
}.

Definition member (k : string) (ks : list string) : bool :=
  existsb (fun k' => k' =? k) ks.

(** [pd.DataFrame(records)] for a list of dictionaries: the columns are the
    keys in order of first appearance, a key a record lacks is missing. *)
Definition DataFrame_of_records (records : list RowDict) : DataFrame :=
  let cols :=
    fold_left
      (fun cs d =>
         fold_left (fun cs kv => if member (fst kv) cs then cs
                                 else cs ++ [fst kv]) d cs)
      records [] in
  {| columns := cols;
     values :=
       map (fun d =>
              map (fun c => match lookup d c with
                            | Some v => v
                            | None => None
                            end) cols)
           records |}.

(** [df.empty] *)
Definition empty (df : DataFrame) : bool :=
  match columns df, values df with
  | [], _ => true
  | _, [] => true
  | _, _ => false
  end.

(** ** parse_launch_table *)

(** The body of the loop over [table.find_all("tr")[1:]] (lines 67-80):
    one row is looked at and [data_rows] is returned as the loop leaves
    it. *)
Definition parse_row (headers : list string) (data_rows : list RowDict)
  (row : Tr) : list RowDict :=
  let cells := row in
  match cells with
  | [] => data_rows                                        (* continue *)
  | _ :: _ =>
      let row_text := map get_text cells in
      if ((List.length row_text <? List.length headers)%nat
          || (200 <? String.length (join " " row_text))%nat)%bool
      then data_rows                                       (* continue *)
      else
        let row_text' :=
          if (List.length row_text <? List.length headers)%nat
          then map Some row_text
               ++ repeat None (List.length headers - List.length row_text)
          else map Some row_text in
        data_rows ++ [dict (zip headers row_text')]
  end.

Definition parse_rows (headers : list string) (rows : list Tr)
  : list RowDict :=
  fold_left (parse_row headers) rows [].

(** [soup_table] is [soup.find("table", {"class": "wikitable"})]. *)
Definition parse_launch_table (soup_table : option Table)
  : M DataFrame DataFrame :=
  match soup_table with
  | None =>
      logging_error "No table with class 'wikitable' found." ;;;
      ret (DataFrame_of_records [])
  | Some table =>
      match table with
      | [] =>
          (* table.find("tr") is None *)
          raise (AttributeError
                   "'NoneType' object has no attribute 'find_all'")
      | first_tr :: rest =>
          let headers := map get_text (filter is_th first_tr) in
          ret (DataFrame_of_records (parse_rows headers rest))
      end
  end.

(** ** clean_launch_data *)

Definition column_mapping : list (string * string) :=
  [ ("Flight", "Flight No.");
    ("Launch site", "Launch site");
    ("Payload", "Payload");
    ("Payload mass", "PayloadMass");
    ("Orbit", "Orbit");
    ("Customer", "Customer");
    ("Launch outcome", "Launch outcome");
    ("Booster", "Version Booster");
    ("Booster landing", "Booster landing");
    ("Date", "Date");
    ("Time", "Time") ].

Fixpoint mapping_get (m : list (string * string)) (k : string)
  : option string :=
  match m with
  | [] => None
  | (k', v) :: m' => if k' =? k then Some v else mapping_get m' k
  end.

(** [df.rename(columns=mapping)]: a label that is a key of the mapping is
    replaced by its value, any other label and every cell stay. *)
Definition rename (df : DataFrame) (mapping : list (string * string))
  : DataFrame :=
  {| columns :=
       map (fun c => match mapping_get mapping c with
                     | Some c' => c'
                     | None => c
                     end) (columns df);
     values := values df |}.

Definition clean_launch_data (df : DataFrame) : DataFrame :=
  let df_clean :=
    rename df
      (filter (fun kv => member (fst kv) (columns df)) column_mapping) in
  df_clean.

(** ** export_data_to_csv *)

Definition export_data_to_csv (df : DataFrame) (filename : string)
  : M DataFrame unit :=
  try_except
    (to_csv df filename ;;;
     logging_info ("Data exported successfully to " ++ filename))
    (fun error =>
       logging_error ("Error exporting data to CSV: " ++ exn_str error)).

Definition default_filename : string := "spaceX_web_scraped.csv".

(** ** get_html_content and run

    [page url] is what [requests.get(url)] answers; [soup_of html] is the
    table query of [parse_launch_table] on the parsed text. *)
Definition get_html_content (page : string -> Response string) (url : string)
  : M DataFrame (option string) :=
  match page url with
  | Ok text => ret (Some text)
  | RequestException error =>
      logging_error
        ("Error fetching HTML content from " ++ url ++ ": " ++ error) ;;;
      ret None
  end.

Definition run (page : string -> Response string)
  (soup_of : string -> option Table) : M DataFrame unit :=
  html_content <- get_html_content page URL ;;
  match html_content with
  | None => logging_error "Failed to retrieve HTML content."
  | Some html =>
      df_raw <- parse_launch_table (soup_of html) ;;
      if empty df_raw
      then logging_error "No data extracted from the HTML content."
      else
        let df_clean := clean_launch_data df_raw in
        export_data_to_csv df_clean default_filename
  end.

(** [main]: a new scraper runs. *)
Definition main (page : string -> Response string)
  (soup_of : string -> option Table) : M DataFrame unit :=
  run page soup_of.

(** ** Notions used to state the properties *)

(** A row padded with nulls up to the header count, as the specification
    words it. *)
Definition padded (headers : list string) (row : Tr)
  : list (option string) :=
  map Some (map get_text row)
  ++ repeat None (List.length headers - List.length row).

(** The rows that reach line 80. *)
Definition reaches_append (headers : list string) (row : Tr) : bool :=
  (negb (List.length row =? 0)%nat
   && (List.length headers <=? List.length row)%nat
   && (String.length (join " " (map get_text row)) <=? 200)%nat)%bool.

(** The distinct labels of a list, in order of first appearance. *)
Definition add_label (cs : list string) (k : string) : list string :=
  if member k cs then cs else cs ++ [k].

Definition distinct (ks : list string) : list string :=
  fold_left add_label ks [].

(** A header row of two cells, and a data row of one. *)
Definition flight_date_header : Tr :=
  [ {| tag := th; get_text := "Flight" |};
    {| tag := th; get_text := "Date" |} ].

Definition lone_cell_row : Tr := [ {| tag := td; get_text := "1" |} ].

(** A data row of two cells whose joined text has 201 characters, and a
    row of three cells. *)
Definition long_row : Tr :=
  [ {| tag := td; get_text := "1" |};
    {| tag := td;
       get_text :=
         String.concat ""
           (repeat "0123456789" 19) ++ "012345678" |} ].

Definition wide_row : Tr :=
  [ {| tag := th; get_text := "1" |};
    {| tag := td; get_text := "4 June 2010" |};
    {| tag := td; get_text := "Success" |} ].

(** A page whose wikitable is the header row and the wide row. *)
Definition sample_page (url : string) : Response string :=
  if url =? URL then Ok "<html>...</html>"
  else RequestException "404 Client Error".

Definition sample_soup (html : string) : option Table :=
  Some [flight_date_header; wide_row].

(** The label a column has after the renaming under the fixed mapping. *)
Definition renamed (c : string) : string :=
  match mapping_get column_mapping c with
  | Some c' => c'
  | None => c
  end.

End Falcon9Scraper.

(* ================================================================== *)
(** * falcon9_data_collection.py *)
(* ================================================================== *)

Module SpaceXDataExtractor.

Definition SPACEX_LAUNCHES_URL : string :=
  "https://api.spacexdata.com/v4/launches/past".
Definition LAUNCHPADS_URL : string :=
  "https://api.spacexdata.com/v4/launchpads/".
Definition PAYLOADS_URL : string := "https://api.spacexdata.com/v4/payloads/".
Definition ROCKETS_URL : string := "https://api.spacexdata.com/v4/rockets/".
Definition CORES_URL : string := "https://api.spacexdata.com/v4/cores/".

(** ** Dates *)

(** [datetime.date]; the name [date] is the column of the frame. *)
Record pydate : Type := { year : nat; month : nat; day : nat }.

(** [a <= b] on dates: year, then month, then day. *)
Definition date_le (a b : pydate) : bool :=
  (if year a <? year b then true
   else if year b <? year a then false
   else if month a <? month b then true
   else if month b <? month a then false
   else day a <=? day b)%nat.

Definition is_leap (y : nat) : bool :=
  (((y mod 4 =? 0) && negb (y mod 100 =? 0)) || (y mod 400 =? 0))%nat.

Definition days_in_month (y m : nat) : nat :=
  match m with
  | 2 => if is_leap y then 29 else 28
  | 4 | 6 | 9 | 11 => 30
  | _ => 31
  end.

(** The day after [d] in the calendar, [d + timedelta(days=1)]; the code
    does not compute it, the boundary property of the cutoff speaks of
    it. *)
Definition day_after (d : pydate) : pydate :=
  (if day d <? days_in_month (year d) (month d)
   then {| year := year d; month := month d; day := S (day d) |}
   else if month d <? 12
   then {| year := year d; month := S (month d); day := 1 |}
   else {| year := S (year d); month := 1; day := 1 |})%nat.

(** ** Frames of the collector *)

(** One row of the launch frame.  The cells of the columns [cores],
    [payloads] and [date] change type along [fetch_launch_data]: lists in
    the listing, their sole element after unwrapping, no [date] column
    before line 106. *)
Record Row (C P D : Type) : Type := {
  rocket : Scalar;
  payloads : P;
  launchpad : Scalar;
  cores : C;
  flight_number : Scalar;
  date_utc : string;
  date : D
}.
Arguments rocket {C P D} r.
Arguments payloads {C P D} r.
Arguments launchpad {C P D} r.
Arguments cores {C P D} r.
Arguments flight_number {C P D} r.
Arguments date_utc {C P D} r.
Arguments date {C P D} r.

(** An entry of the primary listing, projected on the six columns of
    lines 94-95. *)
Definition Launch : Type := Row (list Dict) (list Scalar) unit.

(** A row of [raw_data]. *)
Definition RawLaunchRecord : Type := Row Dict Scalar pydate.

(** A frame: its rows in order, each under its index label. *)
Definition Frame (R : Type) : Type := list (nat * R).

(** The default [RangeIndex] over a list of rows. *)
Definition range_index {R} (rows : list R) : Frame R :=
  combine (seq 0 (List.length rows)) rows.

(** [df[mask]]: the rows the mask keeps, under their labels. *)
Definition select {R} (mask : R -> bool) (df : Frame R) : Frame R :=
  filter (fun ir => mask (snd ir)) df.

(** [df.reset_index(drop=True)] *)
Definition reset_index {R} (df : Frame R) : Frame R :=
  range_index (map snd df).

(** Assigning a column computed row by row; the first cell that raises
    ends the assignment. *)
Fixpoint assign {R R'} (f : R -> outcome R') (df : Frame R)
  : outcome (Frame R') :=
  match df with
  | [] => Returns []
  | (i, r) :: df' =>
      match f r with
      | Raises e => Raises e
      | Returns r' =>
          match assign f df' with
          | Raises e => Raises e
          | Returns out => Returns ((i, r') :: out)
          end
      end
  end.

Definition lift {T A} (o : outcome A) : M T A :=
  match o with
  | Returns a => ret a
  | Raises e => raise e
  end.

(** [x[0]] *)
Definition item0 {A} (x : list A) : outcome A :=
  match x with
  | a :: _ => Returns a
  | [] => Raises (IndexError "list index out of range")
  end.

(** [df['cores'] = df['cores'].map(lambda x: x[0])] on one row *)
Definition unwrap_cores {C P D} (r : Row (list C) P D)
  : outcome (Row C P D) :=
  match item0 (cores r) with
  | Raises e => Raises e
  | Returns c =>
      Returns {| rocket := rocket r; payloads := payloads r;
                 launchpad := launchpad r; cores := c;
                 flight_number := flight_number r;
                 date_utc := date_utc r; date := date r |}
  end.

(** [df['payloads'] = df['payloads'].map(lambda x: x[0])] on one row *)
Definition unwrap_payloads {C P D} (r : Row C (list P) D)
  : outcome (Row C P D) :=
  match item0 (payloads r) with
  | Raises e => Raises e
  | Returns p =>
      Returns {| rocket := rocket r; payloads := p;
                 launchpad := launchpad r; cores := cores r;
                 flight_number := flight_number r;
                 date_utc := date_utc r; date := date r |}
  end.

(** [df['date'] = pd.to_datetime(df['date_utc']).dt.date] on one row.
    [to_datetime] is pandas' parser followed by [.date()]: the calendar
    date of a timestamp text, or nothing when pandas rejects the text. *)
Definition derive_date {C P D} (to_datetime : string -> option pydate)
  (r : Row C P D) : outcome (Row C P pydate) :=
  match to_datetime (date_utc r) with
  | None => Raises (ValueError ("Unknown datetime string format: "
                                ++ date_utc r))
  | Some d =>
      Returns {| rocket := rocket r; payloads := payloads r;
                 launchpad := launchpad r; cores := cores r;
                 flight_number := flight_number r;
                 date_utc := date_utc r; date := d |}
  end.

(** ** The final table *)

Record LaunchRecord : Type := {
  FlightNumber : Scalar;
  Date : string;
  BoosterVersion : Scalar;
  PayloadMass : Scalar;
  Orbit : Scalar;
  LaunchSite : Scalar;
  Outcome : string;
  Flights : Scalar;
  GridFins : Scalar;
  Reused : Scalar;
  Legs : Scalar;
  LandingPad : Scalar;
  Block : Scalar;
  ReusedCount : Scalar;
  Serial : Scalar;
  Longitude : Scalar;
  Latitude : Scalar
}.

Definition Table : Type := Frame LaunchRecord.

(** ** The extractor object *)

Record Extractor : Type := {
  limit_date : pydate;
  booster_versions : list Scalar;
  payload_masses : list Scalar;
  orbits : list Scalar;
  launch_sites : list Scalar;
  outcomes : list string;
  flights : list Scalar;
  grid_fins : list Scalar;
  reused_status : list Scalar;
  legs : list Scalar;
  landing_pads : list Scalar;
  block_numbers : list Scalar;
  reuse_counts : list Scalar;
  core_serials : list Scalar;
  longitudes : list Scalar;
  latitudes : list Scalar;
  raw_data : option (Frame RawLaunchRecord);
  processed_data : option Table
}.

(** [__init__] *)
Definition init (limit : pydate) : Extractor :=
  {| limit_date := limit;
     booster_versions := []; payload_masses := []; orbits := [];
     launch_sites := []; outcomes := []; flights := []; grid_fins := [];
     reused_status := []; legs := []; landing_pads := [];
     block_numbers := []; reuse_counts := []; core_serials := [];
     longitudes := []; latitudes := [];
     raw_data := None; processed_data := None |}.

Definition default_limit_date : pydate :=
  {| year := 2020; month := 11; day := 13 |}.

(** ** Updates of the object's attributes *)

Definition set_raw_data (df : Frame RawLaunchRecord) (self : Extractor)
  : Extractor :=
  {| limit_date := limit_date self;
     booster_versions := booster_versions self;
     payload_masses := payload_masses self; orbits := orbits self;
     launch_sites := launch_sites self; outcomes := outcomes self;
     flights := flights self; grid_fins := grid_fins self;
     reused_status := reused_status self; legs := legs self;
     landing_pads := landing_pads self;
     block_numbers := block_numbers self;
     reuse_counts := reuse_counts self; core_serials := core_serials self;
     longitudes := longitudes self; latitudes := latitudes self;
     raw_data := Some df; processed_data := processed_data self |}.

Definition set_processed_data (df : Table) (self : Extractor) : Extractor :=
  {| limit_date := limit_date self;
     booster_versions := booster_versions self;
     payload_masses := payload_masses self; orbits := orbits self;
     launch_sites := launch_sites self; outcomes := outcomes self;
     flights := flights self; grid_fins := grid_fins self;
     reused_status := reused_status self; legs := legs self;
     landing_pads := landing_pads self;
     block_numbers := block_numbers self;
     reuse_counts := reuse_counts self; core_serials := core_serials self;
     longitudes := longitudes self; latitudes := latitudes self;
     raw_data := raw_data self; processed_data := Some df |}.

(** The accumulators grow at their ends.  Each [extend_] function appends
    to the lists one method fills; a loop body appends one element to
    each. *)
Definition extend_launch_sites (longitudes_ latitudes_ names : list Scalar)
  (self : Extractor) : Extractor :=
  {| limit_date := limit_date self;
     booster_versions := booster_versions self;
     payload_masses := payload_masses self; orbits := orbits self;
     launch_sites := launch_sites self ++ names;
     outcomes := outcomes self;
     flights := flights self; grid_fins := grid_fins self;
     reused_status := reused_status self; legs := legs self;
     landing_pads := landing_pads self;
     block_numbers := block_numbers self;
     reuse_counts := reuse_counts self; core_serials := core_serials self;
     longitudes := longitudes self ++ longitudes_;
     latitudes := latitudes self ++ latitudes_;
     raw_data := raw_data self; processed_data := processed_data self |}.

Definition extend_payloads (masses orbits_ : list Scalar) (self : Extractor)
  : Extractor :=
  {| limit_date := limit_date self;
     booster_versions := booster_versions self;
     payload_masses := payload_masses self ++ masses;
     orbits := orbits self ++ orbits_;
     launch_sites := launch_sites self; outcomes := outcomes self;
     flights := flights self; grid_fins := grid_fins self;
     reused_status := reused_status self; legs := legs self;
     landing_pads := landing_pads self;
     block_numbers := block_numbers self;
     reuse_counts := reuse_counts self; core_serials := core_serials self;
     longitudes := longitudes self; latitudes := latitudes self;
     raw_data := raw_data self; processed_data := processed_data self |}.

Definition extend_booster_versions (names : list Scalar) (self : Extractor)
  : Extractor :=
  {| limit_date := limit_date self;
     booster_versions := booster_versions self ++ names;
     payload_masses := payload_masses self; orbits := orbits self;
     launch_sites := launch_sites self; outcomes := outcomes self;
     flights := flights self; grid_fins := grid_fins self;
     reused_status := reused_status self; legs := legs self;
     landing_pads := landing_pads self;
     block_numbers := block_numbers self;
     reuse_counts := reuse_counts self; core_serials := core_serials self;
     longitudes := longitudes self; latitudes := latitudes self;
     raw_data := raw_data self; processed_data := processed_data self |}.

Definition extend_cores (blocks reuse_counts_ serials : list Scalar)
  (self : Extractor) : Extractor :=
  {| limit_date := limit_date self;
     booster_versions := booster_versions self;
     payload_masses := payload_masses self; orbits := orbits self;
     launch_sites := launch_sites self; outcomes := outcomes self;
     flights := flights self; grid_fins := grid_fins self;
     reused_status := reused_status self; legs := legs self;
     landing_pads := landing_pads self;
     block_numbers := block_numbers self ++ blocks;
     reuse_counts := reuse_counts self ++ reuse_counts_;
     core_serials := core_serials self ++ serials;
     longitudes := longitudes self; latitudes := latitudes self;
     raw_data := raw_data self; processed_data := processed_data self |}.

Definition extend_core_usages (outcomes_ : list string)
  (flights_ gridfins reused legs_ landpads : list Scalar) (self : Extractor)
  : Extractor :=
  {| limit_date := limit_date self;
     booster_versions := booster_versions self;
     payload_masses := payload_masses self; orbits := orbits self;
     launch_sites := launch_sites self;
     outcomes := outcomes self ++ outcomes_;
     flights := flights self ++ flights_;
     grid_fins := grid_fins self ++ gridfins;
     reused_status := reused_status self ++ reused;
     legs := legs self ++ legs_;
     landing_pads := landing_pads self ++ landpads;
     block_numbers := block_numbers self;
     reuse_counts := reuse_counts self; core_serials := core_serials self;
     longitudes := longitudes self; latitudes := latitudes self;
     raw_data := raw_data self; processed_data := processed_data self |}.

(** The three appends of lines 122-124 (126-128, 130-132). *)
Definition append_launch_site (longitude latitude name : Scalar)
  : Extractor -> Extractor :=
  extend_launch_sites [longitude] [latitude] [name].

(** The two appends of lines 145-146 (148-149, 151-152). *)
Definition append_payload (mass_kg orbit : Scalar) : Extractor -> Extractor :=
  extend_payloads [mass_kg] [orbit].

(** The append of line 165 (167, 169). *)
Definition append_booster_version (name : Scalar) : Extractor -> Extractor :=
  extend_booster_versions [name].

(** The three appends of lines 183-185 (187-189, 191-193). *)
Definition append_core (block reuse_count serial : Scalar)
  : Extractor -> Extractor :=
  extend_cores [block] [reuse_count] [serial].

(** The six appends of lines 197-202. *)
Definition append_core_usage (outcome : string)
  (flight gridfins reused legs_ landpad : Scalar) : Extractor -> Extractor :=
  extend_core_usages [outcome] [flight] [gridfins] [reused] [legs_] [landpad].

(** ** The network *)

(** What the API answers: the listing at the launches URL, one JSON object
    at every detail URL. *)
Record Network : Type := {
  listing : string -> Response (list Launch);
  document : string -> Response Dict
}.

(** ** Methods *)

Definition fetch_json {A} (get_ : string -> Response A) (url : string)
  : M Table (option A) :=
  match get_ url with
  | Ok body => ret (Some body)
  | RequestException error =>
      logging_error ("Error fetching data from " ++ url ++ ": " ++ error) ;;;
      ret None
  end.

(** [pd.json_normalize(response)]: one row per entry of the listing, in
    order, under the default index. *)
Definition json_normalize (response : list Launch) : Frame Launch :=
  range_index response.

(** [df[['rocket', 'payloads', 'launchpad', 'cores', 'flight_number',
    'date_utc']]] on the normalized listing (lines 94-95).  The frame of an
    empty listing has no columns at all, and pandas answers the selection
    with a [KeyError]; the rows of a listing with entries carry the six
    columns ([Launch] holds just these). *)
Definition required_columns (df : Frame Launch) : outcome (Frame Launch) :=
  match df with
  | [] =>
      Raises (KeyError
                "None of [Index(['rocket', 'payloads', 'launchpad', 'cores', 'flight_number', 'date_utc'], dtype='object')] are in the [columns]")
  | _ :: _ => Returns df
  end.

Definition fetch_launch_data (net : Network)
  (to_datetime : string -> option pydate) (self : Extractor)
  : M Table Extractor :=
  response <- fetch_json (listing net) SPACEX_LAUNCHES_URL ;;
  match response with
  | None =>
      logging_error "Failed to retrieve launch data." ;;;
      ret self
  | Some response =>
      let df := json_normalize response in
      (* the message also lists the columns of the listing *)
      logging_info "Columns in the raw data" ;;;
      (* Keep only required columns *)
      df <- lift (required_columns df) ;;
      (* Remove rows with multiple cores or payloads *)
      let df := select (fun r => (List.length (cores r) =? 1)%nat) df in
      let df := select (fun r => (List.length (payloads r) =? 1)%nat) df in
      (* Extract single values from lists *)
      df <- lift (assign unwrap_cores df) ;;
      df <- lift (assign unwrap_payloads df) ;;
      (* Convert date_utc to datetime.date and filter based on limit_date *)
      df <- lift (assign (derive_date to_datetime) df) ;;
      let df := select (fun r => date_le (date r) (limit_date self)) df in
      ret (set_raw_data (reset_index df) self)
  end.

(** [if response:] for a fetched object: fetched and not empty. *)
Definition nonempty (response : option Dict) : option Dict :=
  match response with
  | Some ((_ :: _) as d) => Some d
  | _ => None
  end.

Definition get_launch_site_data (net : Network) (self : Extractor)
  : M Table Extractor :=
  match raw_data self with
  | None =>
      logging_error "No launch data available for launch sites." ;;;
      ret self
  | Some df =>
      for_each (map (fun ir => launchpad (snd ir)) df)
        (fun launchpad_id self =>
           if truthy launchpad_id then
             let url := (LAUNCHPADS_URL ++ str launchpad_id)%string in
             response <- fetch_json (document net) url ;;
             match nonempty response with
             | Some response =>
                 ret (append_launch_site (get response "longitude")
                        (get response "latitude") (get response "name") self)
             | None => ret (append_launch_site PyNone PyNone PyNone self)
             end
           else ret (append_launch_site PyNone PyNone PyNone self))
        self
  end.

Definition get_payload_data (net : Network) (self : Extractor)
  : M Table Extractor :=
  match raw_data self with
  | None =>
      logging_error "No launch data available for payloads." ;;;
      ret self
  | Some df =>
      for_each (map (fun ir => payloads (snd ir)) df)
        (fun payload_id self =>
           if truthy payload_id then
             let url := (PAYLOADS_URL ++ str payload_id)%string in
             response <- fetch_json (document net) url ;;
             match nonempty response with
             | Some response =>
                 ret (append_payload (get response "mass_kg")
                        (get response "orbit") self)
             | None => ret (append_payload PyNone PyNone self)
             end
           else ret (append_payload PyNone PyNone self))
        self
  end.

Definition get_booster_version_data (net : Network) (self : Extractor)
  : M Table Extractor :=
  match raw_data self with
  | None =>
      logging_error "No launch data available for booster versions." ;;;
      ret self
  | Some df =>
      for_each (map (fun ir => rocket (snd ir)) df)
        (fun rocket_id self =>
           if truthy rocket_id then
             let url := (ROCKETS_URL ++ str rocket_id)%string in
             response <- fetch_json (document net) url ;;
             match nonempty response with
             | Some response =>
                 ret (append_booster_version (get response "name") self)
             | None => ret (append_booster_version PyNone self)
             end
           else ret (append_booster_version PyNone self))
        self
  end.

Definition get_core_data (net : Network) (self : Extractor)
  : M Table Extractor :=
  match raw_data self with
  | None =>
      logging_error "No launch data available for core information." ;;;
      ret self
  | Some df =>
      for_each (map (fun ir => cores (snd ir)) df)
        (fun core_info self =>
           let core_id := get core_info "core" in
           self <-
             (if truthy core_id then
                let url := (CORES_URL ++ str core_id)%string in
                response <- fetch_json (document net) url ;;
                match nonempty response with
                | Some response =>
                    ret (append_core (get response "block")
                           (get response "reuse_count")
                           (get response "serial") self)
                | None => ret (append_core PyNone PyNone PyNone self)
                end
              else ret (append_core PyNone PyNone PyNone self)) ;;
           let landing_success := get core_info "landing_success" in
           let landing_type := get core_info "landing_type" in
           ret (append_core_usage
                  (str landing_success ++ " " ++ str landing_type)
                  (get core_info "flight") (get core_info "gridfins")
                  (get core_info "reused") (get core_info "legs")
                  (get core_info "landpad") self))
        self
  end.

(** [pd.DataFrame(launch_data)] for the dictionary of lines 228-246: the
    lists become the columns, which pandas accepts only when they all have
    one length; the row labelled [i] holds the [i]-th element of each.  A
    cell is kept as the list gave it: the column types pandas infers (a
    numeric column that holds a [None] becomes float64, its [None] a NaN)
    are not modelled. *)
Definition DataFrame_of_columns (flight_number_ : list Scalar)
  (date_utc_ : list string) (self : Extractor) : outcome Table :=
  let n := List.length flight_number_ in
  if forallb (Nat.eqb n)
       [ List.length date_utc_;
         List.length (booster_versions self);
         List.length (payload_masses self);
         List.length (orbits self);
         List.length (launch_sites self);
         List.length (outcomes self);
         List.length (flights self);
         List.length (grid_fins self);
         List.length (reused_status self);
         List.length (legs self);
         List.length (landing_pads self);
         List.length (block_numbers self);
         List.length (reuse_counts self);
         List.length (core_serials self);
         List.length (longitudes self);
         List.length (latitudes self) ]
  then
    Returns
      (map (fun i =>
              (i,
               {| FlightNumber := nth i flight_number_ PyNone;
                  Date := nth i date_utc_ "";
                  BoosterVersion := nth i (booster_versions self) PyNone;
                  PayloadMass := nth i (payload_masses self) PyNone;
                  Orbit := nth i (orbits self) PyNone;
                  LaunchSite := nth i (launch_sites self) PyNone;
                  Outcome := nth i (outcomes self) "";
                  Flights := nth i (flights self) PyNone;
                  GridFins := nth i (grid_fins self) PyNone;
                  Reused := nth i (reused_status self) PyNone;
                  Legs := nth i (legs self) PyNone;
                  LandingPad := nth i (landing_pads self) PyNone;
                  Block := nth i (block_numbers self) PyNone;
                  ReusedCount := nth i (reuse_counts self) PyNone;
                  Serial := nth i (core_serials self) PyNone;
                  Longitude := nth i (longitudes self) PyNone;
                  Latitude := nth i (latitudes self) PyNone |}))
           (seq 0 n))
  else Raises (ValueError "All arrays must be of the same length").

Definition _create_dataframe (self : Extractor) : M Table Extractor :=
  match raw_data self with
  | None => raise (TypeError "'NoneType' object is not subscriptable")
  | Some raw =>
      df <- lift (DataFrame_of_columns
                    (map (fun ir => flight_number (snd ir)) raw)
                    (map (fun ir => date_utc (snd ir)) raw) self) ;;
      ret (set_processed_data
             (select (fun r => ne_str (BoosterVersion r) "Falcon 1") df)
             self)
  end.

(** The four enrichment calls of [process_all_data], lines 216-219. *)
Definition enrichment (net : Network) (self : Extractor)
  : M Table Extractor :=
  self <- get_booster_version_data net self ;;
  self <- get_launch_site_data net self ;;
  self <- get_payload_data net self ;;
  get_core_data net self.

Definition process_all_data (net : Network)
  (to_datetime : string -> option pydate) (self : Extractor)
  : M Table Extractor :=
  self <- fetch_launch_data net to_datetime self ;;
  match raw_data self with
  | None | Some [] =>
      logging_error "No data available to process." ;;;
      ret self
  | Some (_ :: _) =>
      self <- enrichment net self ;;
      _create_dataframe self
  end.

Definition export_to_csv (self : Extractor) (filename : string)
  : M Table unit :=
  match processed_data self with
  | Some df =>
      to_csv df filename ;;;
      logging_info ("Data exported to " ++ filename)
  | None =>
      logging_error
        "No processed data available. Run process_all_data() first."
  end.

Definition default_filename : string := "SpaceX_API_data.csv".

Definition main (net : Network) (to_datetime : string -> option pydate)
  : M Table unit :=
  let extractor := init default_limit_date in
  extractor <- process_all_data net to_datetime extractor ;;
  export_to_csv extractor default_filename.

(** ** One timestamp parser

    The calendar date of a text that starts [YYYY-MM-DD], the form of the
    API's [date_utc] ("2020-11-13T10:00:00.000Z"); the examples run it in
    the place of [pd.to_datetime(...).dt.date]. *)
Definition digit (c : ascii) : option nat :=
  let n := nat_of_ascii c in
  if ((48 <=? n) && (n <=? 57))%nat then Some (n - 48) else None.

Definition iso8601_date (s : string) : option pydate :=
  match s with
  | String y1 (String y2 (String y3 (String y4 (String sep1
      (String m1 (String m2 (String sep2 (String d1 (String d2 _))))))))) =>
      match digit y1, digit y2, digit y3, digit y4,
            digit m1, digit m2, digit d1, digit d2 with
      | Some a, Some b, Some c, Some d, Some e, Some f, Some g, Some h =>
          if (Ascii.eqb sep1 "-" && Ascii.eqb sep2 "-")%bool
          then Some {| year := 1000 * a + 100 * b + 10 * c + d;
                       month := 10 * e + f;
                       day := 10 * g + h |}
          else None
      | _, _, _, _, _, _, _, _ => None
      end
  | _ => None
  end.

(** ** Sample inputs *)

Definition sample_core : Dict :=
  [ ("core", PyStr "5e9e28a6f35918c0803b265c"); ("flight", PyInt 2);
    ("gridfins", PyBool true); ("legs", PyBool true);
    ("reused", PyBool true); ("landing_success", PyBool true);
    ("landing_type", PyStr "ASDS");
    ("landpad", PyStr "5e9e3032383ecb6bb234e7ca") ].

Definition sample_launch (flight : Z) (timestamp : string)
  (payloads_ : list Scalar) (cores_ : list Dict) : Launch :=
  {| rocket := PyStr "5e9d0d95eda69973a809d1ec";
     payloads := payloads_;
     launchpad := PyStr "5e9e4501f509094ba4566f84";
     cores := cores_;
     flight_number := PyInt flight;
     date_utc := timestamp;
     date := tt |}.

(** Four entries: one at the default cutoff, one the day after, one with
    two payloads, one without a core. *)
Definition sample_listing : list Launch :=
  [ sample_launch 107 "2020-11-13T10:00:00.000Z" [PyStr "p107"]
      [sample_core];
    sample_launch 108 "2020-11-14T00:00:00.000Z" [PyStr "p108"]
      [sample_core];
    sample_launch 60 "2018-04-02T20:30:41.000Z" [PyStr "p60a"; PyStr "p60b"]
      [sample_core];
    sample_launch 61 "2018-04-18T22:51:00.000Z" [PyStr "p61"] [] ].

(** A network that serves the sample listing and one rocket. *)
Definition sample_network : Network :=
  {| listing := fun url =>
       if url =? SPACEX_LAUNCHES_URL then Ok sample_listing
       else RequestException "404 Client Error";
     document := fun url =>
       if url =? (ROCKETS_URL ++ "5e9d0d95eda69973a809d1ec")
       then Ok [("name", PyStr "Falcon 9")]
       else RequestException "404 Client Error" |}.

(** A listing of three entries, the second with two payloads, on a network
    that serves it and the rocket. *)
Definition mock_listing : list Launch :=
  [ sample_launch 1 "2010-06-04T18:45:00.000Z" [PyStr "p1"] [sample_core];
    sample_launch 2 "2010-12-08T15:43:00.000Z" [PyStr "p2a"; PyStr "p2b"]
      [sample_core];
    sample_launch 3 "2012-05-22T07:44:00.000Z" [PyStr "p3"] [sample_core] ].

Definition mock_network : Network :=
  {| listing := fun url =>
       if url =? SPACEX_LAUNCHES_URL then Ok mock_listing
       else RequestException "404 Client Error";
     document := document sample_network |}.

(** A network whose listing is empty. *)
Definition empty_network : Network :=
  {| listing := fun url => Ok [];
     document := fun url => RequestException "404 Client Error" |}.

(** A network whose listing request fails. *)
Definition offline_network : Network :=
  {| listing := fun url => RequestException "Connection refused";
     document := fun url => RequestException "Connection refused" |}.


Definition late_network : Network :=
  {| listing := fun url =>
       Ok [sample_launch 110 "2020-12-06T16:17:00.000Z" [PyStr "p110"]
             [sample_core]];
     document := fun url => RequestException "404 Client Error" |}.

(** The same listing on a network whose detail endpoints all fail. *)
Definition sample_network_without_details : Network :=
  {| listing := fun url =>
       if url =? SPACEX_LAUNCHES_URL then Ok sample_listing
       else RequestException "404 Client Error";
     document := fun url => RequestException "503 Server Error" |}.

(** Three raw records and an extractor after their enrichment: the first
    flew a Falcon 1, the rocket look-up of the second failed. *)
Definition sample_record (flight : Z) (timestamp : string) (d : pydate)
  : RawLaunchRecord :=
  {| rocket := PyStr "5e9d0d95eda69973a809d1ec";
     payloads := PyStr "5eb0e4b5b6c3bb0006eeb1e1";
     launchpad := PyStr "5e9e4501f509094ba4566f84";
     cores := sample_core;
     flight_number := PyInt flight;
     date_utc := timestamp;
     date := d |}.

Definition sample_raw_data : Frame RawLaunchRecord :=
  range_index
    [ sample_record 4 "2008-09-28T23:15:00.000Z"
        {| year := 2008; month := 9; day := 28 |};
      sample_record 6 "2010-06-04T18:45:00.000Z"
        {| year := 2010; month := 6; day := 4 |};
      sample_record 8 "2012-05-22T07:44:00.000Z"
        {| year := 2012; month := 5; day := 22 |} ].

Definition sample_enriched : Extractor :=
  extend_core_usages
    ["True ASDS"; "None None"; "False Ocean"]
    [PyInt 1; PyInt 1; PyInt 1]
    [PyBool false; PyBool false; PyBool true]
    [PyBool false; PyBool false; PyBool false]
    [PyBool false; PyBool false; PyBool true]
    [PyNone; PyNone; PyNone]
    (extend_cores
       [PyNone; PyInt 1; PyInt 1] [PyInt 0; PyInt 0; PyInt 0]
       [PyStr "Merlin2C"; PyStr "B0003"; PyStr "B0005"]
       (extend_payloads
          [PyFloat "165.0"; PyNone; PyFloat "525.0"]
          [PyStr "LEO"; PyStr "LEO"; PyStr "LEO"]
          (extend_launch_sites
             [PyFloat "167.7431292"; PyFloat "-80.577366";
              PyFloat "-80.577366"]
             [PyFloat "9.0477206"; PyFloat "28.5618571";
              PyFloat "28.5618571"]
             [PyStr "Kwajalein Atoll"; PyStr "CCSFS SLC 40";
              PyStr "CCSFS SLC 40"]
             (extend_booster_versions
                [PyStr "Falcon 1"; PyNone; PyStr "Falcon 9"]
                (set_raw_data sample_raw_data
                   (init default_limit_date)))))).

(** The enriched extractor with one booster version too many. *)
Definition sample_misaligned : Extractor :=
  append_booster_version (PyStr "Falcon Heavy") sample_enriched.

(** ** Notions used to state the properties *)

(** The entries the specification keeps: one payload, one core, and a
    derived date at most the cutoff. *)
Definition retained (limit : pydate) (to_datetime : string -> option pydate)
  (e : Launch) : bool :=
  ((List.length (payloads e) =? 1)%nat
   && (List.length (cores e) =? 1)%nat
   && match to_datetime (date_utc e) with
      | Some d => date_le d limit
      | None => false
      end)%bool.

(** The timestamp parser accepts the timestamp of every entry that has one
    payload and one core (the entries whose date the code derives). *)
Definition timestamps_accepted (to_datetime : string -> option pydate)
  (response : list Launch) : Prop :=
  forall e,
    In e response ->
    List.length (cores e) = 1 -> List.length (payloads e) = 1 ->
    to_datetime (date_utc e) <> None.

(** The raw record of a listing entry: its lists replaced by their first
    elements and its date derived.  (An entry with an empty list or a
    rejected timestamp has no raw record; the defaults only make the
    function total.) *)
Definition record_of (to_datetime : string -> option pydate) (e : Launch)
  : RawLaunchRecord :=
  {| rocket := rocket e;
     payloads := hd PyNone (payloads e);
     launchpad := launchpad e;
     cores := hd [] (cores e);
     flight_number := flight_number e;
     date_utc := date_utc e;
     date := match to_datetime (date_utc e) with
             | Some d => d
             | None => {| year := 0; month := 0; day := 0 |}
             end |}.

(** A dependent look-up as the four enrichment loops make it: nothing when
    the id is falsy, when the request fails, or when the object fetched is
    empty. *)
Definition look_up (net : Network) (base : string) (id : Scalar)
  : option Dict :=
  if truthy id then
    match document net (base ++ str id) with
    | Ok ((_ :: _) as d) => Some d
    | _ => None
    end
  else None.

(** A field of a looked-up object, [None] when there is no object. *)
Definition field (o : option Dict) (key : string) : Scalar :=
  match o with
  | Some d => get d key
  | None => PyNone
  end.

(** What a dependent look-up logs: the error record of [fetch_json] when
    the id is truthy and the request fails, nothing otherwise. *)
Definition look_up_errors (net : Network) (base : string) (id : Scalar)
  : list LogRecord :=
  if truthy id then
    match document net (base ++ str id) with
    | Ok _ => []
    | RequestException error =>
        [ {| level := ERROR;
             message := "Error fetching data from " ++ (base ++ str id)
                        ++ ": " ++ error |} ]
    end
  else [].

(** The synthesized outcome of a core-usage object. *)
Definition outcome_of (core_info : Dict) : string :=
  str (get core_info "landing_success") ++ " "
  ++ str (get core_info "landing_type").

(** Every accumulator has [n] elements. *)
Definition aligned (self : Extractor) (n : nat) : Prop :=
  List.length (booster_versions self) = n
  /\ List.length (payload_masses self) = n
  /\ List.length (orbits self) = n
  /\ List.length (launch_sites self) = n
  /\ List.length (outcomes self) = n
  /\ List.length (flights self) = n
  /\ List.length (grid_fins self) = n
  /\ List.length (reused_status self) = n
  /\ List.length (legs self) = n
  /\ List.length (landing_pads self) = n
  /\ List.length (block_numbers self) = n
  /\ List.length (reuse_counts self) = n
  /\ List.length (core_serials self) = n
  /\ List.length (longitudes self) = n
  /\ List.length (latitudes self) = n.

End SpaceXDataExtractor.

(* ================================================================== *)
(** * Properties of the scraper *)
(* ================================================================== *)

Module ScraperProperties.
Import Falcon9Scraper.

(** ** The row filter of [parse_launch_table] *)

Section RowFilter.

Variable headers : list string.

Lemma parse_row_short data_rows row :
  List.length row < List.length headers ->
  parse_row headers data_rows row = data_rows.
Proof.
  intros Hshort. unfold parse_row.
  destruct row as [|c row']; [reflexivity|].
  cbv zeta. rewrite length_map.
  apply Nat.ltb_lt in Hshort. rewrite Hshort. reflexivity.
Qed.

Lemma parse_row_long data_rows row :
  200 < String.length (join " " (map get_text row)) ->
  parse_row headers data_rows row = data_rows.
Proof.
  intros Hlong. unfold parse_row.
  destruct row as [|c row']; [reflexivity|].
  cbv zeta. apply Nat.ltb_lt in Hlong. rewrite Hlong.
  rewrite orb_true_r. reflexivity.
Qed.

(** What one turn of the loop does: a row that reaches line 80 is appended
    with its own cells, never padded; any other row leaves [data_rows]
    alone. *)
Lemma parse_row_cases data_rows row :
  parse_row headers data_rows row =
  if reaches_append headers row
  then data_rows ++ [dict (zip headers (map Some (map get_text row)))]
  else data_rows.
Proof.
  unfold parse_row, reaches_append.
  destruct row as [|c row']; [reflexivity|].
  cbv zeta. rewrite length_map.
  set (r := c :: row'). change (List.length r =? 0)%nat with false.
  cbn [negb andb].
  destruct (Nat.ltb_spec (List.length r) (List.length headers)) as [Hlt|Hge].
  - cbn [orb]. destruct (Nat.leb_spec (List.length headers) (List.length r));
      [lia | reflexivity].
  - cbn [orb]. destruct (Nat.leb_spec (List.length headers) (List.length r));
      [| lia].
    cbn [andb].
    destruct (Nat.ltb_spec 200 (String.length (join " " (map get_text r))));
      destruct (Nat.leb_spec (String.length (join " " (map get_text r))) 200);
      try lia; reflexivity.
Qed.

Lemma fold_parse_row rows : forall data_rows,
  fold_left (parse_row headers) rows data_rows =
  data_rows
  ++ map (fun row => dict (zip headers (map Some (map get_text row))))
         (filter (reaches_append headers) rows).
Proof.
  induction rows as [|row rows IH]; intros data_rows; cbn [fold_left filter].
  - now rewrite app_nil_r.
  - rewrite IH, parse_row_cases.
    destruct (reaches_append headers row); cbn [map].
    + now rewrite <- app_assoc.
    + reflexivity.
Qed.

(** The rows of the output are the rows that pass both tests, in document
    order, each zipped with the headers as it is. *)
Lemma parse_rows_filter rows :
  parse_rows headers rows =
  map (fun row => dict (zip headers (map Some (map get_text row))))
      (filter (reaches_append headers) rows).
Proof. unfold parse_rows. now rewrite fold_parse_row. Qed.

Lemma reaches_append_short row :
  List.length row < List.length headers ->
  reaches_append headers row = false.
Proof.
  intros H. unfold reaches_append.
  destruct (Nat.leb_spec (List.length headers) (List.length row)); [lia|].
  now rewrite andb_false_r.
Qed.

End RowFilter.

(** C1, as amended.  In [parse_launch_table] a table row with fewer cells
    than there are headers is dropped, whatever the length of its joined
    text: the table without that row parses to the same frame, and no row
    of the output was padded (each is its own cells zipped with the
    headers). *)
Theorem short_rows_are_dropped header_row before row after :
  List.length row < List.length (filter is_th header_row) ->
  parse_launch_table (Some (header_row :: before ++ row :: after)) =
  parse_launch_table (Some (header_row :: before ++ after))
  /\ parse_rows (map get_text (filter is_th header_row))
       (before ++ row :: after) =
     map (fun r => dict (zip (map get_text (filter is_th header_row))
                           (map Some (map get_text r))))
         (filter (reaches_append (map get_text (filter is_th header_row)))
                 (before ++ after)).
Proof.
  intros Hshort.
  assert (Hrows :
    parse_rows (map get_text (filter is_th header_row))
      (before ++ row :: after) =
    parse_rows (map get_text (filter is_th header_row)) (before ++ after)).
  { rewrite !parse_rows_filter, !filter_app. cbn [filter].
    rewrite reaches_append_short; [reflexivity|].
    now rewrite length_map. }
  split.
  - unfold parse_launch_table. now rewrite Hrows.
  - rewrite Hrows. apply parse_rows_filter.
Qed.

Lemma short_rows_are_dropped_witness :
  List.length lone_cell_row < List.length (filter is_th flight_date_header)
  /\ parse_launch_table (Some (flight_date_header :: [] ++ lone_cell_row :: []))
     = parse_launch_table (Some (flight_date_header :: [] ++ [])).
Proof.
  split.
  - cbn. lia.
  - apply (short_rows_are_dropped flight_date_header [] lone_cell_row []).
    cbn. lia.
Defined.

(** C1 as the specification states it fails: a row of one cell under two
    headers, with joined text of one character, is not padded and included;
    the output has no row at all. *)
Lemma short_row_is_not_padded :
  let headers := map get_text (filter is_th flight_date_header) in
  List.length lone_cell_row < List.length headers
  /\ String.length (join " " (map get_text lone_cell_row)) <= 200
  /\ ~ In (dict (zip headers (padded headers lone_cell_row)))
          (parse_rows headers [lone_cell_row])
  /\ parse_launch_table (Some [flight_date_header; lone_cell_row])
       quiet_world
     = (Returns {| columns := []; values := [] |}, quiet_world).
Proof.
  cbn. repeat split; try lia.
Qed.

(** ** The column renamer *)

Lemma mapping_get_filter (cols : list string) c :
  member c cols = true ->
  forall mapping,
    mapping_get (filter (fun kv => member (fst kv) cols) mapping) c =
    mapping_get mapping c.
Proof.
  intros Hc mapping.
  induction mapping as [|[k v] mapping IH]; [reflexivity|].
  cbn [filter fst mapping_get].
  destruct (member k cols) eqn:Hk.
  - cbn [mapping_get]. now rewrite IH.
  - destruct (String.eqb_spec k c) as [->|_]; [congruence | exact IH].
Qed.

Lemma member_In c cols : In c cols -> member c cols = true.
Proof.
  intros H. unfold member. apply existsb_exists.
  exists c. split; [exact H | apply String.eqb_refl].
Qed.

(** C8.  [clean_launch_data] replaces each column label that is a key of
    the fixed mapping by its value ("Booster" becomes "Version Booster"),
    leaves every other label ("Notes") as it is, keeps the labels in their
    places and does not touch the cells. *)
Theorem clean_launch_data_is_a_rename df :
  columns (clean_launch_data df) = map renamed (columns df)
  /\ values (clean_launch_data df) = values df
  /\ (forall c, renamed c = match mapping_get column_mapping c with
                            | Some c' => c'
                            | None => c
                            end)
  /\ renamed "Booster" = "Version Booster"
  /\ renamed "Notes" = "Notes"
  /\ (forall cells,
        clean_launch_data {| columns := ["Booster"; "Notes"];
                             values := cells |}
        = {| columns := ["Version Booster"; "Notes"]; values := cells |}).
Proof.
  split; [|repeat split].
  unfold clean_launch_data, rename. cbn [columns].
  apply map_ext_in. intros c Hc. unfold renamed.
  now rewrite mapping_get_filter by (apply member_In; exact Hc).
Qed.

(** ** The exporter of the scraper *)

(** [export_data_to_csv] returns whatever the write does: after a write
    error the world holds one more record, at level ERROR, with the cause,
    and no new file. *)
Lemma export_data_to_csv_never_raises df filename (w : World DataFrame) :
  export_data_to_csv df filename w =
  match write_error w filename with
  | Some e =>
      (Returns tt,
       {| logs := logs w
                  ++ [{| level := ERROR;
                         message := "Error exporting data to CSV: "
                                    ++ exn_str e |}];
          write_error := write_error w;
          files := files w |})
  | None =>
      (Returns tt,
       {| logs := logs w
                  ++ [{| level := INFO;
                         message := "Data exported successfully to "
                                    ++ filename |}];
          write_error := write_error w;
          files := (filename, df) :: files w |})
  end.
Proof.
  unfold export_data_to_csv, try_except, bind, to_csv.
  destruct (write_error w filename); reflexivity.
Qed.

(** ** Row dictionaries *)

Section Dictionaries.

Lemma member_true_iff k ks : member k ks = true <-> In k ks.
Proof.
  unfold member. rewrite existsb_exists. split.
  - intros (k' & Hin & Heq). apply String.eqb_eq in Heq. now subst.
  - intros Hin. exists k. split; [exact Hin | apply String.eqb_refl].
Qed.

Lemma member_false_iff k ks : member k ks = false <-> ~ In k ks.
Proof.
  rewrite <- member_true_iff. destruct (member k ks); split; congruence.
Qed.

Lemma lookup_setitem d k v q :
  lookup (setitem d k v) q = if k =? q then Some v else lookup d q.
Proof.
  induction d as [|[a b] d IH]; cbn [setitem lookup].
  - reflexivity.
  - destruct (String.eqb_spec a k) as [->|Hak]; cbn [lookup].
    + now destruct (k =? q).
    + rewrite IH. destruct (String.eqb_spec a q) as [->|Haq];
        [|reflexivity].
      destruct (String.eqb_spec k q) as [->|_]; [now elim Hak | reflexivity].
Qed.

Lemma keys_setitem d k v :
  map fst (setitem d k v) = add_label (map fst d) k.
Proof.
  unfold add_label, member.
  induction d as [|[a b] d IH]; cbn [setitem map fst existsb app].
  - reflexivity.
  - destruct (a =? k) eqn:Hak; cbn [map fst orb].
    + reflexivity.
    + rewrite IH. now destruct (existsb (fun k' => k' =? k) (map fst d)).
Qed.

Lemma lookup_fold_setitem pairs q : forall d,
  lookup (fold_left (fun d kv => setitem d (fst kv) (snd kv)) pairs d) q =
  fold_left (fun found kv => if fst kv =? q then Some (snd kv) else found)
    pairs (lookup d q).
Proof.
  induction pairs as [|[k v] pairs IH]; intros d; cbn [fold_left fst snd].
  - reflexivity.
  - now rewrite IH, lookup_setitem.
Qed.

Lemma keys_fold_setitem pairs : forall d,
  map fst (fold_left (fun d kv => setitem d (fst kv) (snd kv)) pairs d) =
  fold_left add_label (map fst pairs) (map fst d).
Proof.
  induction pairs as [|[k v] pairs IH]; intros d; cbn [fold_left map fst snd].
  - reflexivity.
  - now rewrite IH, keys_setitem.
Qed.

Lemma keys_dict pairs : map fst (dict pairs) = distinct (map fst pairs).
Proof. unfold dict, distinct. now rewrite keys_fold_setitem. Qed.

(** A key found by the scan of the pairs holds the value of a pair. *)
Lemma found_in_pairs q (v : option string) pairs : forall found,
  fold_left (fun found kv => if fst kv =? q then Some (snd kv) else found)
    pairs found = Some v ->
  In (q, v) pairs \/ found = Some v.
Proof.
  induction pairs as [|[k u] pairs IH]; intros found; cbn [fold_left fst snd].
  - now right.
  - intros H. apply IH in H as [H|H]; [left; now right|].
    destruct (String.eqb_spec k q) as [->|_]; [|now right].
    injection H as ->. left. now left.
Qed.

Lemma found_without_key q (pairs : list (string * option string)) :
  forall found : option (option string),
  ~ In q (map fst pairs) ->
  fold_left (fun found kv => if fst kv =? q then Some (snd kv) else found)
    pairs found = found.
Proof.
  induction pairs as [|[k u] pairs IH]; intros found Hq;
    cbn [fold_left fst snd map] in *; [reflexivity|].
  destruct (String.eqb_spec k q) as [->|_]; [elim Hq; now left|].
  apply IH. intros H. apply Hq. now right.
Qed.

Lemma lookup_key (d : RowDict) q :
  In q (map fst d) -> exists v, lookup d q = Some v.
Proof.
  induction d as [|[a b] d IH]; cbn [map fst lookup]; [intros []|].
  intros [->|Hin].
  - rewrite String.eqb_refl. now exists b.
  - destruct (a =? q); [now exists b | now apply IH].
Qed.

(** ** Lists of distinct labels *)

Lemma add_labels_In ks : forall cs k,
  In k (fold_left add_label ks cs) <-> In k cs \/ In k ks.
Proof.
  induction ks as [|a ks IH]; intros cs k; cbn [fold_left].
  - cbn. tauto.
  - rewrite IH. unfold add_label.
    destruct (member a cs) eqn:Ha.
    + apply member_true_iff in Ha. cbn. split; [tauto|].
      intros [H|[<-|H]]; auto.
    + rewrite in_app_iff. cbn. tauto.
Qed.

Lemma add_labels_NoDup ks : forall cs,
  NoDup cs -> NoDup (fold_left add_label ks cs).
Proof.
  induction ks as [|a ks IH]; intros cs Hcs; cbn [fold_left]; [exact Hcs|].
  apply IH. unfold add_label. destruct (member a cs) eqn:Ha; [exact Hcs|].
  apply member_false_iff in Ha.
  apply NoDup_app; repeat split; [exact Hcs | repeat constructor; intros []
                                 | intros x Hx [<-|[]]; contradiction ].
Qed.

Lemma add_labels_known ks : forall cs,
  (forall k, In k ks -> In k cs) -> fold_left add_label ks cs = cs.
Proof.
  induction ks as [|a ks IH]; intros cs Hks; cbn [fold_left]; [reflexivity|].
  unfold add_label at 2.
  replace (member a cs) with true
    by (symmetry; apply member_true_iff, Hks; now left).
  apply IH. intros k Hk. apply Hks. now right.
Qed.

Lemma add_labels_new ks : forall cs,
  NoDup ks -> (forall k, In k ks -> ~ In k cs) ->
  fold_left add_label ks cs = cs ++ ks.
Proof.
  induction ks as [|a ks IH]; intros cs Hnd Hnew; cbn [fold_left].
  - now rewrite app_nil_r.
  - inversion Hnd as [|? ? Ha Hks]; subst.
    unfold add_label at 2.
    replace (member a cs) with false
      by (symmetry; apply member_false_iff, Hnew; now left).
    rewrite IH, <- app_assoc; [reflexivity | exact Hks |].
    intros k Hk Hin. apply in_app_iff in Hin as [Hin|[<-|[]]].
    + apply (Hnew k); [now right | exact Hin].
    + contradiction.
Qed.

Lemma distinct_NoDup ks : NoDup (distinct ks).
Proof. apply add_labels_NoDup. constructor. Qed.

Lemma distinct_In ks k : In k (distinct ks) <-> In k ks.
Proof. unfold distinct. rewrite add_labels_In. cbn. tauto. Qed.

Lemma distinct_idempotent ks : distinct (distinct ks) = distinct ks.
Proof.
  unfold distinct at 1.
  rewrite add_labels_new; [reflexivity | apply distinct_NoDup | intros ? _ []].
Qed.

End Dictionaries.

(** ** What [parse_launch_table] keeps of a table *)

Lemma reaches_append_long headers row :
  200 < String.length (join " " (map get_text row)) ->
  reaches_append headers row = false.
Proof.
  intros H. unfold reaches_append.
  destruct (Nat.leb_spec (String.length (join " " (map get_text row))) 200);
    [lia|].
  apply andb_false_r.
Qed.

(** X1.  A table row whose cell texts, joined by single spaces, have more
    than 200 characters is dropped whatever its number of cells: the table
    without that row parses to the same frame. *)
Theorem long_rows_are_dropped header_row before row after w :
  200 < String.length (join " " (map get_text row)) ->
  parse_launch_table (Some (header_row :: before ++ row :: after)) w =
  parse_launch_table (Some (header_row :: before ++ after)) w.
Proof.
  intros Hlong. unfold parse_launch_table.
  rewrite !parse_rows_filter, !filter_app. cbn [filter].
  now rewrite reaches_append_long.
Qed.

Lemma long_rows_are_dropped_witness :
  parse_launch_table (Some (flight_date_header :: [] ++ long_row :: []))
    quiet_world =
  parse_launch_table (Some (flight_date_header :: [] ++ [])) quiet_world.
Proof.
  apply (long_rows_are_dropped flight_date_header [] long_row []).
  vm_compute. lia.
Defined.

Lemma map_fst_zip {A B} (l : list A) : forall l' : list B,
  List.length l <= List.length l' -> map fst (zip l l') = l.
Proof.
  unfold zip. induction l as [|a l IH]; intros [|b l'] Hlen;
    cbn in *; try reflexivity; try lia.
  now rewrite IH by lia.
Qed.

(** X2.  A row with more cells than there are headers is kept with its
    first cells only: the frame is built from each kept row cut to the
    number of headers, the cells beyond are discarded. *)
Theorem cells_beyond_the_headers_are_discarded header_row rows w :
  let headers := map get_text (filter is_th header_row) in
  parse_launch_table (Some (header_row :: rows)) w =
  (Returns
     (DataFrame_of_records
        (map (fun row =>
                dict (zip headers
                        (map Some (firstn (List.length headers)
                                     (map get_text row)))))
             (filter (reaches_append headers) rows))), w).
Proof.
  intros headers. unfold parse_launch_table. fold headers.
  rewrite parse_rows_filter. unfold ret. do 3 f_equal.
  apply map_ext. intros row. unfold zip.
  rewrite (combine_firstn_l headers (map Some (map get_text row))).
  now rewrite firstn_map.
Qed.

(** X3.  When several headers have the same text, a row dictionary has one
    entry for that text, and the entry holds the cell under the last of
    these headers; the keys of the dictionary are the header texts zipped
    with a cell, each once. *)
Theorem duplicate_header_keeps_the_last_cell headers
  (cells : list (option string)) :
  let d := dict (zip headers cells) in
  NoDup (map fst d)
  /\ (forall h, In h (map fst d) <-> In h (map fst (zip headers cells)))
  /\ (forall before h v after,
        zip headers cells = before ++ (h, v) :: after ->
        ~ In h (map fst after) ->
        lookup d h = Some v)
  /\ (forall h, ~ In h (map fst (zip headers cells)) -> lookup d h = None).
Proof.
  intros d. unfold d. rewrite keys_dict.
  split; [apply distinct_NoDup|].
  split; [intros h; apply distinct_In|].
  split.
  - intros before h v after Hzip Hlast.
    unfold dict. rewrite lookup_fold_setitem, Hzip, fold_left_app.
    cbn [fold_left fst snd]. rewrite String.eqb_refl.
    now apply found_without_key.
  - intros h Hnone. unfold dict. rewrite lookup_fold_setitem.
    now apply found_without_key.
Qed.

Lemma columns_of_records (K : list string) (records : list RowDict) :
  NoDup K ->
  (forall d, In d records -> map fst d = K) ->
  columns (DataFrame_of_records records) =
  match records with [] => [] | _ :: _ => K end.
Proof.
  intros HK Hkeys. unfold DataFrame_of_records. cbn [columns].
  assert (Hinner : forall (d : RowDict) cs,
            fold_left (fun cs kv => if member (fst kv) cs then cs
                                    else cs ++ [fst kv]) d cs =
            fold_left add_label (map fst d) cs).
  { induction d as [|kv d IH]; intros cs; cbn [fold_left map];
      [reflexivity | apply IH]. }
  assert (Hrest : forall records' : list RowDict,
            (forall d, In d records' -> map fst d = K) ->
            fold_left
              (fun cs d =>
                 fold_left (fun cs kv => if member (fst kv) cs then cs
                                         else cs ++ [fst kv]) d cs)
              records' K = K).
  { induction records' as [|d records' IH]; intros Hk; cbn [fold_left];
      [reflexivity|].
    rewrite Hinner, (Hk d (or_introl eq_refl)).
    rewrite add_labels_known by auto.
    apply IH. intros d' Hd'. apply Hk. now right. }
  destruct records as [|d records]; [reflexivity|].
  cbn [fold_left]. rewrite Hinner, (Hkeys d (or_introl eq_refl)).
  rewrite (add_labels_new K []) by (auto; intros ? _ []).
  cbn [app]. apply Hrest. intros d' Hd'. apply Hkeys. now right.
Qed.

Lemma values_of_records (records : list RowDict) :
  values (DataFrame_of_records records) =
  map (fun d =>
         map (fun c => match lookup d c with
                       | Some v => v
                       | None => None
                       end) (columns (DataFrame_of_records records)))
      records.
Proof. reflexivity. Qed.

Lemma reaches_append_covers_headers headers row :
  reaches_append headers row = true ->
  List.length headers <= List.length (map Some (map get_text row)).
Proof.
  unfold reaches_append. intros H.
  apply andb_prop in H as [H _]. apply andb_prop in H as [_ H].
  apply Nat.leb_le in H. now rewrite !length_map.
Qed.

Lemma parsed_keys headers rows d :
  In d (parse_rows headers rows) -> map fst d = distinct headers.
Proof.
  rewrite parse_rows_filter. intros Hd.
  apply in_map_iff in Hd as (row & <- & Hrow).
  apply filter_In in Hrow as [_ Hrow].
  rewrite keys_dict, map_fst_zip; [reflexivity|].
  now apply reaches_append_covers_headers.
Qed.

Lemma parsed_columns headers rows :
  columns (DataFrame_of_records (parse_rows headers rows)) =
  match filter (reaches_append headers) rows with
  | [] => []
  | _ :: _ => distinct headers
  end.
Proof.
  rewrite (columns_of_records (distinct headers));
    [| apply distinct_NoDup | apply parsed_keys].
  rewrite parse_rows_filter.
  now destruct (filter (reaches_append headers) rows).
Qed.

Lemma parsed_values_length headers rows :
  List.length (values (DataFrame_of_records (parse_rows headers rows))) =
  List.length (filter (reaches_append headers) rows).
Proof.
  rewrite values_of_records, parse_rows_filter. now rewrite !length_map.
Qed.

Lemma distinct_nil ks : distinct ks = [] <-> ks = [].
Proof.
  split; [|now intros ->].
  destruct ks as [|k ks]; [reflexivity|]. intros H.
  assert (Hk : In k (distinct (k :: ks))) by (apply distinct_In; now left).
  rewrite H in Hk. destruct Hk.
Qed.

(** The frame is empty exactly when no row is kept or the first row has no
    header cell. *)
Lemma parsed_frame_empty headers rows :
  empty (DataFrame_of_records (parse_rows headers rows)) = true <->
  filter (reaches_append headers) rows = [] \/ headers = [].
Proof.
  unfold empty.
  pose proof (parsed_values_length headers rows) as Hlen.
  rewrite parsed_columns.
  destruct (filter (reaches_append headers) rows) as [|row kept] eqn:Hkept.
  - split; [intros _; now left | reflexivity].
  - destruct (distinct headers) as [|c cs] eqn:Hd.
    + apply (proj1 (distinct_nil headers)) in Hd.
      split; [intros _; now right | reflexivity].
    + destruct (values (DataFrame_of_records (parse_rows headers rows)));
        [discriminate Hlen|].
      split; [discriminate|]. intros [H|H]; [discriminate H|].
      subst headers. discriminate Hd.
Qed.

(** X4.  The frame [parse_launch_table] returns for a table with a first
    row: when no row is kept it has no column; otherwise its columns are
    the distinct header texts in order of first appearance, it has one row
    per kept table row, every row has one cell per column, and no cell is
    missing. *)
Theorem parsed_frame_is_rectangular_and_full header_row rows w :
  let headers := map get_text (filter is_th header_row) in
  let kept := filter (reaches_append headers) rows in
  exists df,
    parse_launch_table (Some (header_row :: rows)) w = (Returns df, w)
    /\ columns df = match kept with [] => [] | _ :: _ => distinct headers end
    /\ NoDup (columns df)
    /\ List.length (values df) = List.length kept
    /\ Forall (fun cells =>
                 List.length cells = List.length (columns df)
                 /\ Forall (fun c => c <> None) cells) (values df).
Proof.
  intros headers kept.
  eexists. split.
  { unfold parse_launch_table. fold headers. rewrite parse_rows_filter.
    fold kept. reflexivity. }
  set (records := map (fun row =>
                         dict (zip headers (map Some (map get_text row))))
                      kept).
  assert (Hkeys : forall d, In d records -> map fst d = distinct headers).
  { intros d Hd. apply in_map_iff in Hd as (row & <- & Hrow).
    apply filter_In in Hrow as [_ Hrow].
    rewrite keys_dict, map_fst_zip; [reflexivity|].
    now apply reaches_append_covers_headers. }
  assert (Hcols : columns (DataFrame_of_records records) =
                  match kept with [] => [] | _ :: _ => distinct headers end).
  { rewrite (columns_of_records (distinct headers));
      [| apply distinct_NoDup | exact Hkeys].
    unfold records. now destruct kept. }
  split; [exact Hcols|].
  split; [rewrite Hcols; destruct kept; [constructor | apply distinct_NoDup]|].
  rewrite values_of_records.
  split; [unfold records; now rewrite !length_map|].
  apply Forall_forall. intros cells Hcells.
  apply in_map_iff in Hcells as (d & <- & Hd).
  split; [apply length_map|].
  apply Forall_forall. intros c Hc.
  apply in_map_iff in Hc as (h & <- & Hh).
  assert (Hcolumn : In h (distinct headers)).
  { rewrite Hcols in Hh. destruct kept; [destruct Hh | exact Hh]. }
  rewrite <- (Hkeys d Hd) in Hcolumn.
  destruct (lookup_key d h Hcolumn) as [v Hv]. rewrite Hv.
  apply in_map_iff in Hd as (row & <- & _).
  unfold dict in Hv. rewrite lookup_fold_setitem in Hv.
  apply found_in_pairs in Hv as [Hv|Hv]; [|discriminate Hv].
  apply in_combine_r, in_map_iff in Hv as (text & <- & _). discriminate.
Qed.

(** ** Renaming twice *)

Lemma clean_launch_data_columns df :
  columns (clean_launch_data df) = map renamed (columns df).
Proof.
  unfold clean_launch_data, rename. cbn [columns].
  apply map_ext_in. intros c Hc. unfold renamed.
  now rewrite mapping_get_filter by (apply member_In; exact Hc).
Qed.

Lemma renamed_is_not_a_key c v :
  mapping_get column_mapping c = Some v -> renamed v = v.
Proof.
  unfold column_mapping. cbn [mapping_get]. intros H.
  repeat match type of H with
         | (if ?k =? c then _ else _) = _ =>
             destruct (k =? c); [injection H as <-; reflexivity|]
         end.
  discriminate H.
Qed.

Lemma renamed_idempotent c : renamed (renamed c) = renamed c.
Proof.
  unfold renamed at 2 3.
  destruct (mapping_get column_mapping c) as [v|] eqn:Hc.
  - now apply renamed_is_not_a_key with c.
  - unfold renamed. now rewrite Hc.
Qed.

(** X5.  [clean_launch_data] is idempotent: no canonical column name is
    itself renamed, so cleaning a cleaned frame changes nothing. *)
Theorem clean_launch_data_is_idempotent df :
  clean_launch_data (clean_launch_data df) = clean_launch_data df.
Proof.
  assert (Hcols : columns (clean_launch_data (clean_launch_data df)) =
                  columns (clean_launch_data df)).
  { rewrite !clean_launch_data_columns, map_map.
    apply map_ext. intros c. apply renamed_idempotent. }
  assert (Hvals : values (clean_launch_data (clean_launch_data df)) =
                  values (clean_launch_data df)) by reflexivity.
  destruct (clean_launch_data (clean_launch_data df)),
    (clean_launch_data df). cbn in Hcols, Hvals. now subst.
Qed.

(** ** The exporter and the run of the scraper *)

(** X6.  [export_data_to_csv] never raises.  Whatever the frame, the file
    name and the file system, it returns and logs one record: after a
    write that succeeds the frame is under the file name and the record is
    at level INFO; after a write error no file is added or changed and the
    record, at level ERROR, carries the cause. *)
Theorem export_data_to_csv_always_returns df filename
  (w : World DataFrame) :
  let w' := snd (export_data_to_csv df filename w) in
  fst (export_data_to_csv df filename w) = Returns tt
  /\ write_error w' = write_error w
  /\ match write_error w filename with
     | None =>
         files w' = (filename, df) :: files w
         /\ logs w'
            = logs w
              ++ [{| level := INFO;
                     message := "Data exported successfully to "
                                ++ filename |}]
     | Some e =>
         files w' = files w
         /\ logs w'
            = logs w
              ++ [{| level := ERROR;
                     message := "Error exporting data to CSV: "
                                ++ exn_str e |}]
     end.
Proof.
  cbv zeta. rewrite export_data_to_csv_never_raises.
  destruct (write_error w filename); cbn; auto.
Qed.

(** X7.  [run] returns unless the page was fetched and its table has no
    row at all: then [table.find("tr")] is [None], the [AttributeError] of
    line 63 leaves [run], and nothing was logged or written. *)
Theorem run_raises_only_on_a_table_without_rows page soup_of
  (w : World DataFrame) :
  (fst (run page soup_of w) = Returns tt
   /\ ~ (exists html, page URL = Ok html /\ soup_of html = Some []))
  \/ (exists msg html,
        run page soup_of w = (Raises (AttributeError msg), w)
        /\ page URL = Ok html /\ soup_of html = Some []).
Proof.
  unfold run, get_html_content.
  destruct (page URL) as [html|error] eqn:Hpage.
  - destruct (soup_of html) as [[|header_row rows]|] eqn:Hsoup.
    + right. eexists. exists html. unfold bind, ret, parse_launch_table.
      rewrite Hsoup. cbn. auto.
    + left. split.
      * unfold bind, ret, parse_launch_table. rewrite Hsoup. cbn.
        destruct (empty _); [reflexivity|].
        now rewrite export_data_to_csv_never_raises;
          destruct (write_error w default_filename).
      * intros (html' & [= <-] & H). congruence.
    + left. split.
      * unfold bind, ret, parse_launch_table. rewrite Hsoup. reflexivity.
      * intros (html' & [= <-] & H). congruence.
  - left. split; [reflexivity|]. intros (html' & H & _). discriminate H.
Qed.

(** X8.  [run] exports the cleaned frame: when the page is fetched, its
    table has a first row with a header cell and at least one row is kept,
    and the file system takes the write, the world after [run] has the
    cleaned frame under the default file name and one more log record, the
    success message. *)
Theorem run_exports_the_cleaned_frame page soup_of (w : World DataFrame)
  html header_row rows :
  page URL = Ok html ->
  soup_of html = Some (header_row :: rows) ->
  map get_text (filter is_th header_row) <> [] ->
  filter (reaches_append (map get_text (filter is_th header_row))) rows
  <> [] ->
  write_error w default_filename = None ->
  run page soup_of w =
  (Returns tt,
   {| logs := logs w
              ++ [{| level := INFO;
                     message := "Data exported successfully to "
                                ++ default_filename |}];
      write_error := write_error w;
      files :=
        (default_filename,
         clean_launch_data
           (DataFrame_of_records
              (parse_rows (map get_text (filter is_th header_row)) rows)))
        :: files w |}).
Proof.
  intros Hpage Hsoup Hheaders Hkept Hwrite.
  unfold run, get_html_content. rewrite Hpage.
  unfold bind at 1. unfold ret at 1.
  unfold bind, parse_launch_table. rewrite Hsoup. unfold ret.
  destruct (empty _) eqn:Hempty.
  - apply parsed_frame_empty in Hempty as [H|H]; contradiction.
  - now rewrite export_data_to_csv_never_raises, Hwrite.
Qed.

Lemma run_exports_the_cleaned_frame_witness :
  files (snd (run sample_page sample_soup quiet_world)) =
  [ (default_filename,
     {| columns := ["Flight No."; "Date"];
        values := [[Some "1"; Some "4 June 2010"]] |}) ].
Proof.
  rewrite (run_exports_the_cleaned_frame sample_page sample_soup quiet_world
             "<html>...</html>" flight_date_header [wide_row]
             eq_refl eq_refl);
    [reflexivity | discriminate | discriminate | reflexivity].
Defined.

(** X9.  [run] without data writes nothing: when the page cannot be
    fetched, or it has no wikitable, or no row of the table is kept, or
    the first row has no header cell, [run] returns, the files are as
    before, and the last log record is an error. *)
Theorem run_without_data_writes_nothing page soup_of (w : World DataFrame) :
  (exists error, page URL = RequestException error)
  \/ (exists html,
        page URL = Ok html
        /\ (soup_of html = None
            \/ exists header_row rows,
                 soup_of html = Some (header_row :: rows)
                 /\ (filter (reaches_append
                               (map get_text (filter is_th header_row)))
                        rows = []
                     \/ map get_text (filter is_th header_row) = []))) ->
  exists message_,
    fst (run page soup_of w) = Returns tt
    /\ files (snd (run page soup_of w)) = files w
    /\ last (logs (snd (run page soup_of w)))
            {| level := INFO; message := "" |}
       = {| level := ERROR; message := message_ |}.
Proof.
  unfold run, get_html_content.
  intros [[error Hpage] | (html & Hpage & Hcase)]; rewrite Hpage.
  - eexists. cbn. split; [reflexivity|]. split; [reflexivity|].
    now rewrite !last_last.
  - destruct Hcase as [Hsoup | (header_row & rows & Hsoup & Hempty)].
    + eexists. unfold bind, ret, parse_launch_table. rewrite Hsoup. cbn.
      split; [reflexivity|]. split; [reflexivity|]. now rewrite !last_last.
    + apply (proj2 (parsed_frame_empty _ _)) in Hempty.
      eexists. unfold bind, ret. cbv beta iota zeta.
      unfold parse_launch_table. rewrite Hsoup.
      unfold ret. cbv beta iota zeta. rewrite Hempty. cbn. split; [reflexivity|]. split; [reflexivity|].
      now rewrite !last_last.
Qed.

Lemma run_without_data_writes_nothing_witness :
  fst (run (fun _ => RequestException "timed out") sample_soup quiet_world)
  = Returns tt
  /\ files (snd (run (fun _ => RequestException "timed out") sample_soup
                   quiet_world)) = [].
Proof.
  destruct (run_without_data_writes_nothing
              (fun _ => RequestException "timed out") sample_soup quiet_world
              (or_introl (ex_intro _ "timed out" eq_refl)))
    as (m & Hret & Hfiles & _).
  split; [exact Hret | exact Hfiles].
Defined.

End ScraperProperties.

(* ================================================================== *)
(** * Properties of the collector *)
(* ================================================================== *)

Module ExtractorProperties.
Import SpaceXDataExtractor.

(** ** Loops that only append *)

Lemma for_each_returns {T S A} (body : A -> S -> M T S) (g : A -> S -> S) :
  (forall x s w, exists w', body x s w = (Returns (g x s), w')) ->
  forall xs s w,
    exists w',
      for_each xs body s w =
      (Returns (fold_left (fun s x => g x s) xs s), w').
Proof.
  intros Hbody xs.
  induction xs as [|x xs IH]; intros s w; cbn [for_each fold_left].
  - exists w. reflexivity.
  - destruct (Hbody x s w) as [w1 H1].
    destruct (IH (g x s) w1) as [w2 H2].
    exists w2. unfold bind. now rewrite H1.
Qed.

Ltac unfold_updates :=
  unfold append_booster_version, append_launch_site, append_payload,
    append_core, append_core_usage, extend_booster_versions,
    extend_launch_sites, extend_payloads, extend_cores, extend_core_usages;
  cbn [limit_date booster_versions payload_masses orbits launch_sites
       outcomes flights grid_fins reused_status legs landing_pads
       block_numbers reuse_counts core_serials longitudes latitudes
       raw_data processed_data].

(** Projects an attribute out of nested updates, one update at a time. *)
Ltac project_updates :=
  cbn [limit_date booster_versions payload_masses orbits launch_sites
       outcomes flights grid_fins reused_status legs landing_pads
       block_numbers reuse_counts core_serials longitudes latitudes
       raw_data processed_data
       extend_booster_versions extend_launch_sites extend_payloads
       extend_cores extend_core_usages set_raw_data set_processed_data
       init app].

Ltac fold_appends IH :=
  cbn [fold_left map]; rewrite IH; unfold_updates;
  rewrite <- ?app_assoc; reflexivity.

Ltac no_appends self :=
  destruct self; unfold_updates; cbn [fold_left map];
  rewrite ?app_nil_r; reflexivity.

Lemma fold_append_booster_version {X} (f : X -> Scalar) xs : forall self,
  fold_left (fun self x => append_booster_version (f x) self) xs self =
  extend_booster_versions (map f xs) self.
Proof.
  induction xs as [|x xs IH]; intros self;
    [no_appends self | fold_appends IH].
Qed.

Lemma fold_append_launch_site {X} (f1 f2 f3 : X -> Scalar) xs : forall self,
  fold_left (fun self x => append_launch_site (f1 x) (f2 x) (f3 x) self)
    xs self =
  extend_launch_sites (map f1 xs) (map f2 xs) (map f3 xs) self.
Proof.
  induction xs as [|x xs IH]; intros self;
    [no_appends self | fold_appends IH].
Qed.

Lemma fold_append_payload {X} (f1 f2 : X -> Scalar) xs : forall self,
  fold_left (fun self x => append_payload (f1 x) (f2 x) self) xs self =
  extend_payloads (map f1 xs) (map f2 xs) self.
Proof.
  induction xs as [|x xs IH]; intros self;
    [no_appends self | fold_appends IH].
Qed.

Lemma fold_append_core {X} (f1 f2 f3 : X -> Scalar) (o : X -> string)
  (g1 g2 g3 g4 g5 : X -> Scalar) xs : forall self,
  fold_left
    (fun self x =>
       append_core_usage (o x) (g1 x) (g2 x) (g3 x) (g4 x) (g5 x)
         (append_core (f1 x) (f2 x) (f3 x) self)) xs self =
  extend_core_usages (map o xs) (map g1 xs) (map g2 xs) (map g3 xs)
    (map g4 xs) (map g5 xs)
    (extend_cores (map f1 xs) (map f2 xs) (map f3 xs) self).
Proof.
  induction xs as [|x xs IH]; intros self;
    [no_appends self | fold_appends IH].
Qed.

(** ** The dependent look-ups *)

Section Enrichment.

Variable net : Network.

(** What the guarded fetch of a loop body leaves in [response], under the
    test [if response:]. *)
Lemma fetch_json_look_up base id w :
  truthy id = true ->
  exists w',
    fetch_json (document net) (base ++ str id) w =
    (Returns (match document net (base ++ str id) with
              | Ok d => Some d
              | RequestException _ => None
              end), w')
    /\ nonempty (match document net (base ++ str id) with
                 | Ok d => Some d
                 | RequestException _ => None
                 end) = look_up net base id.
Proof.
  intros Hid. unfold fetch_json, look_up. rewrite Hid.
  destruct (document net (base ++ str id)) as [d|msg].
  - exists w. split; [reflexivity|]. destruct d; reflexivity.
  - eexists. split; reflexivity.
Qed.

Lemma look_up_falsy base id :
  truthy id = false -> look_up net base id = None.
Proof. intros H. unfold look_up. now rewrite H. Qed.

Ltac loop_body base x w :=
  let H := fresh "Hid" in
  cbv beta; destruct (truthy x) eqn:H;
  [ let w' := fresh "w" in
    let Hf := fresh "Hfetch" in
    let Hn := fresh "Hnonempty" in
    destruct (fetch_json_look_up base x w H) as [w' [Hf Hn]];
    cbv beta iota zeta; unfold bind; rewrite Hf, Hn;
    destruct (look_up net base x); eexists; reflexivity
  | rewrite (look_up_falsy base x H); eexists; reflexivity ].

(** Runs a loop whose body always returns [g x self]. *)
Ltac run_loop g body_tac :=
  match goal with
  | |- ex (fun w' => for_each ?xs ?body ?s ?w = @?rhs w') =>
      let Hb := fresh "Hbody" in
      let w1 := fresh "w" in
      let Hloop := fresh "Hloop" in
      assert (Hb : forall x s0 w0,
                 exists w', body x s0 w0 = (Returns (g x s0), w'))
        by (let x := fresh "x" in
            let s0 := fresh "s" in
            let w0 := fresh "w" in
            intros x s0 w0; body_tac x w0);
      destruct (for_each_returns body g Hb xs s w) as [w1 Hloop];
      exists w1; rewrite Hloop
  end.

(** ** The four enrichment methods

    Each returns, and appends to its accumulators one element per row of
    [raw_data], in row order: the field of the row's look-up, [None] when
    the look-up gave nothing. *)

Lemma get_booster_version_data_returns self raw w :
  raw_data self = Some raw ->
  exists w',
    get_booster_version_data net self w =
    (Returns
       (extend_booster_versions
          (map (fun r => field (look_up net ROCKETS_URL (rocket r)) "name")
               (map snd raw)) self), w').
Proof.
  intros Hraw. unfold get_booster_version_data. rewrite Hraw.
  run_loop
    (fun rocket_id =>
       append_booster_version
         (field (look_up net ROCKETS_URL rocket_id) "name"))
    ltac:(fun x w0 => loop_body ROCKETS_URL x w0).
  rewrite (fold_append_booster_version
             (fun id => field (look_up net ROCKETS_URL id) "name")).
  now rewrite !map_map.
Qed.

Lemma get_launch_site_data_returns self raw w :
  raw_data self = Some raw ->
  exists w',
    get_launch_site_data net self w =
    (Returns
       (extend_launch_sites
          (map (fun r => field (look_up net LAUNCHPADS_URL (launchpad r))
                           "longitude") (map snd raw))
          (map (fun r => field (look_up net LAUNCHPADS_URL (launchpad r))
                           "latitude") (map snd raw))
          (map (fun r => field (look_up net LAUNCHPADS_URL (launchpad r))
                           "name") (map snd raw))
          self), w').
Proof.
  intros Hraw. unfold get_launch_site_data. rewrite Hraw.
  run_loop
    (fun id =>
       append_launch_site
         (field (look_up net LAUNCHPADS_URL id) "longitude")
         (field (look_up net LAUNCHPADS_URL id) "latitude")
         (field (look_up net LAUNCHPADS_URL id) "name"))
    ltac:(fun x w0 => loop_body LAUNCHPADS_URL x w0).
  rewrite (fold_append_launch_site
             (fun id => field (look_up net LAUNCHPADS_URL id) "longitude")
             (fun id => field (look_up net LAUNCHPADS_URL id) "latitude")
             (fun id => field (look_up net LAUNCHPADS_URL id) "name")).
  now rewrite !map_map.
Qed.

Lemma get_payload_data_returns self raw w :
  raw_data self = Some raw ->
  exists w',
    get_payload_data net self w =
    (Returns
       (extend_payloads
          (map (fun r => field (look_up net PAYLOADS_URL (payloads r))
                           "mass_kg") (map snd raw))
          (map (fun r => field (look_up net PAYLOADS_URL (payloads r))
                           "orbit") (map snd raw))
          self), w').
Proof.
  intros Hraw. unfold get_payload_data. rewrite Hraw.
  run_loop
    (fun id =>
       append_payload
         (field (look_up net PAYLOADS_URL id) "mass_kg")
         (field (look_up net PAYLOADS_URL id) "orbit"))
    ltac:(fun x w0 => loop_body PAYLOADS_URL x w0).
  rewrite (fold_append_payload
             (fun id => field (look_up net PAYLOADS_URL id) "mass_kg")
             (fun id => field (look_up net PAYLOADS_URL id) "orbit")).
  now rewrite !map_map.
Qed.

Lemma bind_returns {T A B} (m : M T A) (f : A -> M T B) w a w' :
  m w = (Returns a, w') -> bind m f w = f a w'.
Proof. intros H. unfold bind. now rewrite H. Qed.

Lemma bind_raises {T A B} (m : M T A) (f : A -> M T B) w e w' :
  m w = (Raises e, w') -> bind m f w = (Raises e, w').
Proof. intros H. unfold bind. now rewrite H. Qed.

(** The core look-up of lines 179-193. *)
Lemma core_look_up_returns core_id (self : Extractor) (w : World Table) :
  exists w',
    (if truthy core_id then
       response <- fetch_json (document net) (CORES_URL ++ str core_id) ;;
       match nonempty response with
       | Some response =>
           ret (append_core (get response "block")
                  (get response "reuse_count") (get response "serial") self)
       | None => ret (append_core PyNone PyNone PyNone self)
       end
     else ret (append_core PyNone PyNone PyNone self)) w =
    (Returns
       (append_core (field (look_up net CORES_URL core_id) "block")
          (field (look_up net CORES_URL core_id) "reuse_count")
          (field (look_up net CORES_URL core_id) "serial") self), w').
Proof. loop_body CORES_URL core_id w. Qed.

Lemma get_core_data_returns self raw w :
  raw_data self = Some raw ->
  exists w',
    get_core_data net self w =
    (Returns
       (extend_core_usages
          (map (fun r => outcome_of (cores r)) (map snd raw))
          (map (fun r => get (cores r) "flight") (map snd raw))
          (map (fun r => get (cores r) "gridfins") (map snd raw))
          (map (fun r => get (cores r) "reused") (map snd raw))
          (map (fun r => get (cores r) "legs") (map snd raw))
          (map (fun r => get (cores r) "landpad") (map snd raw))
          (extend_cores
             (map (fun r => field (look_up net CORES_URL
                                     (get (cores r) "core")) "block")
                  (map snd raw))
             (map (fun r => field (look_up net CORES_URL
                                     (get (cores r) "core")) "reuse_count")
                  (map snd raw))
             (map (fun r => field (look_up net CORES_URL
                                     (get (cores r) "core")) "serial")
                  (map snd raw))
             self)), w').
Proof.
  intros Hraw. unfold get_core_data. rewrite Hraw.
  run_loop
    (fun core_info self =>
       append_core_usage (outcome_of core_info)
         (get core_info "flight") (get core_info "gridfins")
         (get core_info "reused") (get core_info "legs")
         (get core_info "landpad")
         (append_core
            (field (look_up net CORES_URL (get core_info "core")) "block")
            (field (look_up net CORES_URL (get core_info "core"))
               "reuse_count")
            (field (look_up net CORES_URL (get core_info "core")) "serial")
            self))
    ltac:(fun x w0 =>
            cbv beta zeta;
            let w1 := fresh "w" in
            let H1 := fresh "Hcore" in
            match goal with
            | |- ex (fun _ => bind _ _ ?w = (Returns (_ (_ ?s)), _)) =>
                destruct (core_look_up_returns (get x "core") s w)
                  as [w1 H1]
            end;
            erewrite bind_returns by exact H1;
            eexists; reflexivity).
  rewrite (fold_append_core
             (fun c => field (look_up net CORES_URL (get c "core")) "block")
             (fun c => field (look_up net CORES_URL (get c "core"))
                         "reuse_count")
             (fun c => field (look_up net CORES_URL (get c "core")) "serial")
             outcome_of
             (fun c => get c "flight") (fun c => get c "gridfins")
             (fun c => get c "reused") (fun c => get c "legs")
             (fun c => get c "landpad")).
  now rewrite !map_map.
Qed.

(** Enrichment: the four methods in the order of [process_all_data]. *)
Lemma enrichment_returns self raw w :
  raw_data self = Some raw ->
  exists w',
    enrichment net self w =
    (Returns
       (extend_core_usages
          (map (fun r => outcome_of (cores r)) (map snd raw))
          (map (fun r => get (cores r) "flight") (map snd raw))
          (map (fun r => get (cores r) "gridfins") (map snd raw))
          (map (fun r => get (cores r) "reused") (map snd raw))
          (map (fun r => get (cores r) "legs") (map snd raw))
          (map (fun r => get (cores r) "landpad") (map snd raw))
          (extend_cores
             (map (fun r => field (look_up net CORES_URL
                                     (get (cores r) "core")) "block")
                  (map snd raw))
             (map (fun r => field (look_up net CORES_URL
                                     (get (cores r) "core")) "reuse_count")
                  (map snd raw))
             (map (fun r => field (look_up net CORES_URL
                                     (get (cores r) "core")) "serial")
                  (map snd raw))
             (extend_payloads
                (map (fun r => field (look_up net PAYLOADS_URL (payloads r))
                                 "mass_kg") (map snd raw))
                (map (fun r => field (look_up net PAYLOADS_URL (payloads r))
                                 "orbit") (map snd raw))
                (extend_launch_sites
                   (map (fun r => field (look_up net LAUNCHPADS_URL
                                           (launchpad r)) "longitude")
                        (map snd raw))
                   (map (fun r => field (look_up net LAUNCHPADS_URL
                                           (launchpad r)) "latitude")
                        (map snd raw))
                   (map (fun r => field (look_up net LAUNCHPADS_URL
                                           (launchpad r)) "name")
                        (map snd raw))
                   (extend_booster_versions
                      (map (fun r => field (look_up net ROCKETS_URL
                                              (rocket r)) "name")
                           (map snd raw))
                      self))))), w').
Proof.
  intros Hraw. unfold enrichment.
  destruct (get_booster_version_data_returns self raw w Hraw)
    as [w1 H1].
  erewrite bind_returns by exact H1.
  edestruct get_launch_site_data_returns as [w2 H2];
    [| erewrite bind_returns by exact H2]; [exact Hraw|].
  edestruct get_payload_data_returns as [w3 H3];
    [| erewrite bind_returns by exact H3]; [exact Hraw|].
  edestruct get_core_data_returns as [w4 H4];
    [| exists w4; exact H4]. exact Hraw.
Qed.

Lemma look_up_failed base id msg :
  document net (base ++ str id) = RequestException msg ->
  look_up net base id = None.
Proof.
  intros H. unfold look_up. rewrite H. now destruct (truthy id).
Qed.

(** C7.  Enrichment of the [N] rows of [raw_data], from the empty
    accumulators of [__init__], returns; every accumulator then has length
    [N] and is, element by element in row order, the field of the row's own
    look-up (or of its own core-usage object); a look-up with a falsy id or
    a failed request gives [None] for its fields, and the row keeps its
    place. *)
Theorem enrichment_keeps_one_slot_per_record limit raw
  (w : World Table) :
  let records := map snd raw in
  let rocket_of r := look_up net ROCKETS_URL (rocket r) in
  let payload_of r := look_up net PAYLOADS_URL (payloads r) in
  let site_of r := look_up net LAUNCHPADS_URL (launchpad r) in
  let core_of r := look_up net CORES_URL (get (cores r) "core") in
  exists self' w',
    enrichment net (set_raw_data raw (init limit)) w = (Returns self', w')
    /\ aligned self' (List.length raw)
    /\ booster_versions self' = map (fun r => field (rocket_of r) "name") records
    /\ payload_masses self' = map (fun r => field (payload_of r) "mass_kg") records
    /\ orbits self' = map (fun r => field (payload_of r) "orbit") records
    /\ launch_sites self' = map (fun r => field (site_of r) "name") records
    /\ longitudes self' = map (fun r => field (site_of r) "longitude") records
    /\ latitudes self' = map (fun r => field (site_of r) "latitude") records
    /\ block_numbers self' = map (fun r => field (core_of r) "block") records
    /\ reuse_counts self'
       = map (fun r => field (core_of r) "reuse_count") records
    /\ core_serials self' = map (fun r => field (core_of r) "serial") records
    /\ outcomes self' = map (fun r => outcome_of (cores r)) records
    /\ flights self' = map (fun r => get (cores r) "flight") records
    /\ grid_fins self' = map (fun r => get (cores r) "gridfins") records
    /\ reused_status self' = map (fun r => get (cores r) "reused") records
    /\ legs self' = map (fun r => get (cores r) "legs") records
    /\ landing_pads self' = map (fun r => get (cores r) "landpad") records
    /\ (forall base id key,
          truthy id = false -> field (look_up net base id) key = PyNone)
    /\ (forall base id msg key,
          document net (base ++ str id) = RequestException msg ->
          field (look_up net base id) key = PyNone).
Proof.
  intros records rocket_of payload_of site_of core_of.
  destruct (enrichment_returns (set_raw_data raw (init limit)) raw w
              eq_refl) as [w' Hrun].
  eexists. exists w'. split; [exact Hrun|].
  split.
  { unfold aligned. project_updates.
    rewrite !length_map. repeat split. }
  repeat split.
  - intros base id key Hid. now rewrite look_up_falsy.
  - intros base id msg key Hfail. now rewrite (look_up_failed _ _ msg).
Qed.

Lemma string_length_append (a b : string) :
  String.length (a ++ b) = String.length a + String.length b.
Proof. induction a as [|c a IH]; cbn; [reflexivity | now rewrite IH]. Qed.

(** C6.  [get_core_data] appends, for every row, the outcome text
    [str(landing_success)], one space, [str(landing_type)]; a component
    that is absent is printed as [None] ("None None" when both are), not
    left out. *)
Theorem outcome_is_flag_space_type self raw (w : World Table) :
  exists self' w',
    get_core_data net (set_raw_data raw self) w = (Returns self', w')
    /\ outcomes self' =
       outcomes self
       ++ map (fun r => (str (get (cores r) "landing_success") ++ " "
                         ++ str (get (cores r) "landing_type"))%string)
              (map snd raw)
    /\ (forall core_info,
          String.length (outcome_of core_info) =
          String.length (str (get core_info "landing_success")) + 1
          + String.length (str (get core_info "landing_type")))
    /\ str PyNone = "None"
    /\ outcome_of [("landing_success", PyBool true);
                   ("landing_type", PyStr "ASDS")] = "True ASDS"
    /\ outcome_of [("landing_type", PyStr "Ocean")] = "None Ocean"
    /\ outcome_of [("landing_success", PyBool false)] = "False None"
    /\ outcome_of [("landing_success", PyNone); ("landing_type", PyNone)]
       = "None None"
    /\ outcome_of [] = "None None".
Proof.
  destruct (get_core_data_returns (set_raw_data raw self) raw w eq_refl)
    as [w' Hrun].
  eexists. exists w'. split; [exact Hrun|].
  repeat split.
  intros core_info. unfold outcome_of.
  rewrite !string_length_append. cbn. lia.
Qed.

End Enrichment.

(** ** Frames *)

Lemma assign_map {R R'} (f : R -> outcome R') (g : R -> R') (df : Frame R) :
  (forall ir, In ir df -> f (snd ir) = Returns (g (snd ir))) ->
  assign f df = Returns (map (fun ir => (fst ir, g (snd ir))) df).
Proof.
  induction df as [|[i r] df IH]; intros Hf; cbn [assign map].
  - reflexivity.
  - pose proof (Hf (i, r) (or_introl eq_refl)) as Hr. cbn [snd] in Hr.
    rewrite Hr, IH by (intros ir Hin; apply Hf; now right).
    reflexivity.
Qed.

Lemma map_snd_select {R} (mask : R -> bool) (df : Frame R) :
  map snd (select mask df) = filter mask (map snd df).
Proof.
  unfold select. induction df as [|[i r] df IH]; cbn [filter map snd].
  - reflexivity.
  - destruct (mask r); cbn [map snd]; now rewrite IH.
Qed.

Lemma map_snd_combine_seq {R} (rows : list R) : forall start,
  map snd (combine (seq start (List.length rows)) rows) = rows.
Proof.
  induction rows as [|r rows IH]; intros start; cbn; [reflexivity|].
  now rewrite IH.
Qed.


Lemma map_snd_range_index {R} (rows : list R) :
  map snd (range_index rows) = rows.
Proof. apply map_snd_combine_seq. Qed.


Lemma length_range_index {R} (rows : list R) :
  List.length (range_index rows) = List.length rows.
Proof.
  unfold range_index. rewrite length_combine, length_seq. lia.
Qed.

Lemma In_range_index {R} (rows : list R) ir :
  In ir (range_index rows) -> In (snd ir) rows.
Proof.
  intros H. rewrite <- (map_snd_range_index rows). now apply in_map.
Qed.

(** ** Dates *)

Lemma date_le_refl d : date_le d d = true.
Proof.
  unfold date_le. rewrite !Nat.ltb_irrefl. apply Nat.leb_refl.
Qed.

Lemma day_after_is_later d : date_le (day_after d) d = false.
Proof.
  unfold day_after.
  destruct (Nat.ltb_spec (day d) (days_in_month (year d) (month d))).
  - unfold date_le. cbn [year month day]. rewrite !Nat.ltb_irrefl.
    apply Nat.leb_gt. lia.
  - destruct (Nat.ltb_spec (month d) 12); unfold date_le; cbn [year month day].
    + rewrite Nat.ltb_irrefl.
      destruct (Nat.ltb_spec (S (month d)) (month d)); [lia|].
      destruct (Nat.ltb_spec (month d) (S (month d))); [reflexivity | lia].
    + destruct (Nat.ltb_spec (S (year d)) (year d)); [lia|].
      destruct (Nat.ltb_spec (year d) (S (year d))); [reflexivity | lia].
Qed.

(** ** fetch_launch_data *)

Lemma filter_retained limit to_datetime response :
  timestamps_accepted to_datetime response ->
  filter (fun e => date_le (date (record_of to_datetime e)) limit)
    (filter (fun e : Launch => (List.length (payloads e) =? 1)%nat)
       (filter (fun e : Launch => (List.length (cores e) =? 1)%nat)
          response)) =
  filter (retained limit to_datetime) response.
Proof.
  induction response as [|e response IH]; intros Hts; [reflexivity|].
  assert (IH' := IH (fun e' H => Hts e' (or_intror H))).
  assert (Hparse :
            (List.length (cores e) =? 1)%nat = true ->
            (List.length (payloads e) =? 1)%nat = true ->
            to_datetime (date_utc e) <> None).
  { intros Hc Hp. apply Nat.eqb_eq in Hc, Hp.
    exact (Hts e (or_introl eq_refl) Hc Hp). }
  cbn [filter].
  destruct (List.length (cores e) =? 1)%nat eqn:Hc; cbn [filter].
  - destruct (List.length (payloads e) =? 1)%nat eqn:Hp; cbn [filter].
    + unfold record_of at 1. cbn [date].
      destruct (to_datetime (date_utc e)) as [d|] eqn:Hd;
        [| now elim Hparse].
      replace (retained limit to_datetime e) with (date_le d limit)
        by (unfold retained; now rewrite Hc, Hp, Hd).
      destruct (date_le d limit); now rewrite IH'.
    + replace (retained limit to_datetime e) with false
        by (unfold retained; now rewrite Hp).
      exact IH'.
  - replace (retained limit to_datetime e) with false
      by (unfold retained; now rewrite Hc, andb_false_r).
    exact IH'.
Qed.

Lemma fetch_launch_data_returns net to_datetime self response w :
  listing net SPACEX_LAUNCHES_URL = Ok response ->
  response <> [] ->
  timestamps_accepted to_datetime response ->
  fetch_launch_data net to_datetime self w =
  (Returns
     (set_raw_data
        (range_index
           (map (record_of to_datetime)
              (filter (retained (limit_date self) to_datetime) response)))
        self),
   logged INFO "Columns in the raw data" w).
Proof.
  intros Hlisting Hentries Hts. unfold fetch_launch_data.
  erewrite bind_returns
    by (unfold fetch_json; rewrite Hlisting; reflexivity).
  cbv beta iota zeta. erewrite bind_returns by reflexivity.
  assert (Hcolumns : required_columns (json_normalize response)
                     = Returns (json_normalize response))
    by (destruct response; [now elim Hentries | reflexivity]).
  rewrite Hcolumns. cbn [lift]. erewrite bind_returns by reflexivity.
  set (df2 := select (fun r : Launch => (List.length (payloads r) =? 1)%nat)
                (select (fun r : Launch => (List.length (cores r) =? 1)%nat)
                   (json_normalize response))).
  assert (Hdf2 : forall ir, In ir df2 ->
            In (snd ir) response
            /\ List.length (cores (snd ir)) = 1
            /\ List.length (payloads (snd ir)) = 1).
  { intros ir Hin. unfold df2, select in Hin.
    apply filter_In in Hin as [Hin Hp]. apply filter_In in Hin as [Hin Hc].
    apply Nat.eqb_eq in Hp, Hc. apply In_range_index in Hin. auto. }
  pose (gc := fun r : Launch =>
    {| rocket := rocket r; payloads := payloads r; launchpad := launchpad r;
       cores := hd [] (cores r); flight_number := flight_number r;
       date_utc := date_utc r; date := date r |}).
  pose (gp := fun r : Row Dict (list Scalar) unit =>
    {| rocket := rocket r; payloads := hd PyNone (payloads r);
       launchpad := launchpad r; cores := cores r;
       flight_number := flight_number r;
       date_utc := date_utc r; date := date r |}).
  pose (gd := fun r : Row Dict Scalar unit =>
    {| rocket := rocket r; payloads := payloads r;
       launchpad := launchpad r; cores := cores r;
       flight_number := flight_number r; date_utc := date_utc r;
       date := match to_datetime (date_utc r) with
               | Some d => d
               | None => {| year := 0; month := 0; day := 0 |}
               end |}).
  rewrite (assign_map unwrap_cores gc).
  2:{ intros ir Hin. destruct (Hdf2 ir Hin) as (_ & Hc & _).
      destruct ir as [i [rk pl lp cs fl du dt]]. cbn in Hc.
      unfold unwrap_cores, gc. cbn [snd cores].
      destruct cs; [discriminate Hc | reflexivity]. }
  cbn [lift]. erewrite bind_returns by reflexivity.
  rewrite (assign_map unwrap_payloads gp).
  2:{ intros ir Hin. apply in_map_iff in Hin as (ir0 & <- & Hin0).
      destruct (Hdf2 ir0 Hin0) as (_ & _ & Hp).
      destruct ir0 as [i [rk pl lp cs fl du dt]]. cbn in Hp.
      unfold unwrap_payloads, gp, gc. cbn [snd payloads].
      destruct pl; [discriminate Hp | reflexivity]. }
  cbn [lift]. erewrite bind_returns by reflexivity.
  rewrite (assign_map (derive_date to_datetime) gd).
  2:{ intros ir Hin. apply in_map_iff in Hin as (ir1 & <- & Hin1).
      apply in_map_iff in Hin1 as (ir0 & <- & Hin0).
      destruct (Hdf2 ir0 Hin0) as (Hin & Hc & Hp).
      pose proof (Hts (snd ir0) Hin Hc Hp) as Hparse.
      destruct ir0 as [i [rk pl lp cs fl du dt]]. cbn in Hparse.
      unfold derive_date, gd, gp, gc. cbn [snd date_utc].
      destruct (to_datetime du); [reflexivity | now elim Hparse]. }
  cbn [lift]. erewrite bind_returns by reflexivity.
  unfold ret. f_equal. f_equal. unfold reset_index. f_equal.
  rewrite map_snd_select, !map_map. cbn [snd fst].
  rewrite <- (map_map snd (fun r => gd (gp (gc r)))).
  change (fun r => gd (gp (gc r))) with (record_of to_datetime).
  rewrite filter_map_swap.
  unfold df2. rewrite !map_snd_select.
  unfold json_normalize. rewrite map_snd_range_index.
  apply (f_equal (fun l => range_index (map (record_of to_datetime) l))).
  exact (filter_retained (limit_date self) to_datetime response Hts).
Qed.

(** On an empty listing the selection of the columns raises: [raw_data]
    stays [None] and the error leaves the method. *)
Lemma fetch_launch_data_empty_listing net to_datetime self w :
  listing net SPACEX_LAUNCHES_URL = Ok [] ->
  exists msg,
    fetch_launch_data net to_datetime self w =
    (Raises (KeyError msg), logged INFO "Columns in the raw data" w).
Proof.
  intros Hlisting. eexists. unfold fetch_launch_data.
  erewrite bind_returns
    by (unfold fetch_json; rewrite Hlisting; reflexivity).
  reflexivity.
Qed.

Lemma retained_record limit to_datetime e :
  retained limit to_datetime e = true ->
  payloads e = [payloads (record_of to_datetime e)]
  /\ cores e = [cores (record_of to_datetime e)]
  /\ to_datetime (date_utc e) = Some (date (record_of to_datetime e))
  /\ date_le (date (record_of to_datetime e)) limit = true.
Proof.
  unfold retained, record_of. cbn [payloads cores date].
  intros H. apply andb_prop in H as [H Hd]. apply andb_prop in H as [Hp Hc].
  apply Nat.eqb_eq in Hp, Hc. revert Hp Hc Hd.
  destruct (payloads e) as [|p [|]]; try (cbn; discriminate).
  destruct (cores e) as [|c [|]]; try (cbn; discriminate).
  destruct (to_datetime (date_utc e)); [|cbn; discriminate].
  intros _ _ Hd. repeat split. exact Hd.
Qed.



Lemma sample_listing_has_entries : sample_listing <> [].
Proof. discriminate. Defined.

Lemma sample_timestamps_accepted :
  timestamps_accepted iso8601_date sample_listing.
Proof.
  intros e Hin _ _.
  repeat (destruct Hin as [<-|Hin]; [cbn; discriminate|]).
  destruct Hin.
Defined.


(** C4.  The cutoff of [fetch_launch_data] is inclusive: an entry with one
    payload and one core whose derived date is the cutoff date has its raw
    record in [raw_data]; one whose derived date is the day after the
    cutoff has not. *)
Theorem cutoff_date_is_inclusive net to_datetime self response w e :
  listing net SPACEX_LAUNCHES_URL = Ok response ->
  timestamps_accepted to_datetime response ->
  In e response ->
  List.length (payloads e) = 1 ->
  List.length (cores e) = 1 ->
  exists raw w',
    fetch_launch_data net to_datetime self w =
    (Returns (set_raw_data raw self), w')
    /\ (to_datetime (date_utc e) = Some (limit_date self) ->
        In (record_of to_datetime e) (map snd raw))
    /\ (to_datetime (date_utc e) = Some (day_after (limit_date self)) ->
        ~ In (record_of to_datetime e) (map snd raw)).
Proof.
  intros Hlisting Hts Hin Hp Hc.
  assert (Hentries : response <> []) by (intros ->; destruct Hin).
  eexists. eexists. split.
  { apply fetch_launch_data_returns; eassumption. }
  rewrite map_snd_range_index. split.
  - intros Hd. apply in_map, filter_In. split; [exact Hin|].
    unfold retained. rewrite Hp, Hc, Hd. cbn [Nat.eqb andb].
    apply date_le_refl.
  - intros Hd Hrow. apply in_map_iff in Hrow as (e' & Heq & Hin').
    apply filter_In in Hin' as [_ Hret].
    destruct (retained_record _ _ _ Hret) as (_ & _ & _ & Hle).
    rewrite Heq in Hle. unfold record_of in Hle. cbn [date] in Hle.
    rewrite Hd, day_after_is_later in Hle. discriminate Hle.
Qed.

Lemma cutoff_date_is_inclusive_witness :
  exists raw w',
    fetch_launch_data sample_network iso8601_date (init default_limit_date)
      quiet_world = (Returns (set_raw_data raw (init default_limit_date)), w')
    /\ In (record_of iso8601_date
             (sample_launch 107 "2020-11-13T10:00:00.000Z" [PyStr "p107"]
                [sample_core])) (map snd raw)
    /\ ~ In (record_of iso8601_date
               (sample_launch 108 "2020-11-14T00:00:00.000Z" [PyStr "p108"]
                  [sample_core])) (map snd raw).
Proof.
  destruct (cutoff_date_is_inclusive sample_network iso8601_date
              (init default_limit_date) sample_listing quiet_world
              (sample_launch 107 "2020-11-13T10:00:00.000Z" [PyStr "p107"]
                 [sample_core])
              eq_refl sample_timestamps_accepted
              (or_introl eq_refl) eq_refl eq_refl)
    as (raw & w' & Hrun & Hat & _).
  destruct (cutoff_date_is_inclusive sample_network iso8601_date
              (init default_limit_date) sample_listing quiet_world
              (sample_launch 108 "2020-11-14T00:00:00.000Z" [PyStr "p108"]
                 [sample_core])
              eq_refl sample_timestamps_accepted
              (or_intror (or_introl eq_refl)) eq_refl eq_refl)
    as (raw2 & w2 & Hrun2 & _ & Hafter).
  rewrite Hrun in Hrun2. injection Hrun2 as Hraw _. subst raw2.
  exists raw, w'. split; [exact Hrun|].
  split; [apply Hat | apply Hafter]; reflexivity.
Defined.

(** ** Final assembly *)

Lemma map_nth_seq_from {A} (d : A) (l : list A) : forall start,
  map (fun i => nth (i - start) l d) (seq start (List.length l)) = l.
Proof.
  induction l as [|a l IH]; intros start; cbn [List.length seq map].
  - reflexivity.
  - rewrite Nat.sub_diag. cbn [nth]. f_equal.
    rewrite <- (IH (S start)) at 2.
    apply map_ext_in. intros i Hi. apply in_seq in Hi.
    replace (i - start) with (S (i - S start)) by lia. reflexivity.
Qed.

Lemma map_nth_seq {A} (d : A) (l : list A) n :
  List.length l = n -> map (fun i => nth i l d) (seq 0 n) = l.
Proof.
  intros <-. rewrite <- (map_nth_seq_from d l 0) at 2.
  apply map_ext. intros i. now rewrite Nat.sub_0_r.
Qed.

Lemma ne_str_true v s : ne_str v s = true <-> v <> PyStr s.
Proof.
  destruct v; cbn; try (split; [discriminate | reflexivity]).
  destruct (String.eqb_spec s0 s) as [->|Hne]; cbn.
  - split; [discriminate | congruence].
  - split; [congruence | reflexivity].
Qed.

(** The table pandas builds when every list has the length of
    [raw_data]. *)
Lemma DataFrame_of_columns_aligned flight_numbers timestamps self n :
  List.length flight_numbers = n ->
  List.length timestamps = n ->
  aligned self n ->
  exists table,
    DataFrame_of_columns flight_numbers timestamps self = Returns table
    /\ map fst table = seq 0 n
    /\ map (fun ir => FlightNumber (snd ir)) table = flight_numbers
    /\ map (fun ir => Date (snd ir)) table = timestamps
    /\ map (fun ir => BoosterVersion (snd ir)) table = booster_versions self
    /\ map (fun ir => Outcome (snd ir)) table = outcomes self.
Proof.
  intros Hf Ht
    (H1 & H2 & H3 & H4 & H5 & H6 & H7 & H8 & H9 & H10 & H11 & H12 & H13
     & H14 & H15).
  eexists. split.
  { unfold DataFrame_of_columns.
    rewrite Hf, Ht, H1, H2, H3, H4, H5, H6, H7, H8, H9, H10, H11, H12, H13,
      H14, H15.
    cbn [forallb]. rewrite Nat.eqb_refl. cbn [andb]. reflexivity. }
  rewrite !map_map. cbn [fst snd FlightNumber Date BoosterVersion Outcome].
  split; [apply map_id|].
  split; [now apply map_nth_seq|].
  split; [now apply map_nth_seq|].
  split; now apply map_nth_seq.
Qed.

Lemma _create_dataframe_returns self raw (w : World Table) :
  raw_data self = Some raw ->
  aligned self (List.length raw) ->
  exists table,
    _create_dataframe self w =
    (Returns
       (set_processed_data
          (select (fun r => ne_str (BoosterVersion r) "Falcon 1") table)
          self), w)
    /\ map fst table = seq 0 (List.length raw)
    /\ map (fun ir => FlightNumber (snd ir)) table
       = map flight_number (map snd raw)
    /\ map (fun ir => Date (snd ir)) table = map date_utc (map snd raw)
    /\ map (fun ir => BoosterVersion (snd ir)) table = booster_versions self
    /\ map (fun ir => Outcome (snd ir)) table = outcomes self.
Proof.
  intros Hraw Haligned.
  destruct (DataFrame_of_columns_aligned
              (map (fun ir => flight_number (snd ir)) raw)
              (map (fun ir => date_utc (snd ir)) raw)
              self (List.length raw)
              ltac:(apply length_map) ltac:(apply length_map) Haligned)
    as (table & Htable & Hidx & Hfl & Hdate & Hbv & Hout).
  exists table. split.
  { unfold _create_dataframe. rewrite Hraw, Htable. reflexivity. }
  rewrite !map_map. auto.
Qed.

Lemma In_select {R} (mask : R -> bool) (df : Frame R) ir :
  In ir (select mask df) <-> In ir df /\ mask (snd ir) = true.
Proof. unfold select. apply filter_In. Qed.

(** C5.  [_create_dataframe] builds one row per raw record and then keeps
    a row exactly when its BoosterVersion is not the string "Falcon 1":
    rows with that value are absent from [processed_data], all others are
    present under their labels and in their order, and nothing else is
    filtered. *)
Theorem falcon_1_is_the_only_filter self raw (w : World Table) :
  raw_data self = Some raw ->
  aligned self (List.length raw) ->
  exists table processed,
    _create_dataframe self w =
    (Returns (set_processed_data processed self), w)
    /\ map fst table = seq 0 (List.length raw)
    /\ map (fun ir => BoosterVersion (snd ir)) table = booster_versions self
    /\ processed
       = filter (fun ir => ne_str (BoosterVersion (snd ir)) "Falcon 1") table
    /\ (forall ir,
          In ir table -> BoosterVersion (snd ir) = PyStr "Falcon 1" ->
          ~ In ir processed)
    /\ (forall ir,
          In ir table -> BoosterVersion (snd ir) <> PyStr "Falcon 1" ->
          In ir processed)
    /\ (forall ir, In ir processed -> In ir table).
Proof.
  intros Hraw Haligned.
  destruct (_create_dataframe_returns self raw w Hraw Haligned)
    as (table & Hrun & Hidx & _ & _ & Hbv & _).
  exists table. eexists. split; [exact Hrun|].
  split; [exact Hidx|]. split; [exact Hbv|]. split; [reflexivity|].
  repeat split.
  - intros ir _ Heq Hin. apply In_select in Hin as [_ Hne].
    apply ne_str_true in Hne. contradiction.
  - intros ir Hin Hne. apply In_select. split; [exact Hin|].
    now apply ne_str_true.
  - intros ir Hin. now apply In_select in Hin.
Qed.

Lemma sample_enriched_aligned :
  aligned sample_enriched (List.length sample_raw_data).
Proof. repeat split. Defined.

Lemma falcon_1_is_the_only_filter_witness :
  exists table processed,
    _create_dataframe sample_enriched quiet_world =
    (Returns (set_processed_data processed sample_enriched), quiet_world)
    /\ map fst table = [0; 1; 2]
    /\ map (fun ir => BoosterVersion (snd ir)) table
       = [PyStr "Falcon 1"; PyNone; PyStr "Falcon 9"].
Proof.
  destruct (falcon_1_is_the_only_filter sample_enriched sample_raw_data
              quiet_world eq_refl sample_enriched_aligned)
    as (table & processed & Hrun & Hidx & Hbv & _).
  exists table, processed. auto.
Defined.

(** ** The whole run *)

(** A run of [process_all_data] from a new extractor, on a listing of which
    at least one entry is retained: it returns, and [processed_data] is the
    table of the retained entries, one row each, without the rows of
    "Falcon 1". *)
Lemma process_all_data_returns net to_datetime limit response w :
  listing net SPACEX_LAUNCHES_URL = Ok response ->
  timestamps_accepted to_datetime response ->
  let records :=
    map (record_of to_datetime)
      (filter (retained limit to_datetime) response) in
  records <> [] ->
  exists self' w' table,
    process_all_data net to_datetime (init limit) w = (Returns self', w')
    /\ processed_data self'
       = Some (select (fun r => ne_str (BoosterVersion r) "Falcon 1") table)
    /\ map fst table = seq 0 (List.length records)
    /\ map (fun ir => FlightNumber (snd ir)) table
       = map flight_number records
    /\ map (fun ir => Date (snd ir)) table = map date_utc records
    /\ map (fun ir => BoosterVersion (snd ir)) table
       = map (fun r => field (look_up net ROCKETS_URL (rocket r)) "name")
           records
    /\ map (fun ir => Outcome (snd ir)) table
       = map (fun r => outcome_of (cores r)) records.
Proof.
  intros Hlisting Hts records Hsome.
  assert (Hentries : response <> []) by (intros ->; now apply Hsome).
  unfold process_all_data.
  erewrite bind_returns
    by (apply fetch_launch_data_returns; eassumption).
  cbn [limit_date init]. fold records.
  set (raw := range_index records).
  assert (Hrecords : map snd raw = records) by apply map_snd_range_index.
  assert (Hlen : List.length raw = List.length records)
    by apply length_range_index.
  cbn [raw_data set_raw_data].
  destruct raw as [|ir raw'] eqn:Hraw.
  { destruct records; [now elim Hsome | discriminate Hlen]. }
  rewrite <- Hraw in *. clear Hraw ir raw'.
  destruct (enrichment_returns net (set_raw_data raw (init limit)) raw
              (logged INFO "Columns in the raw data" w) eq_refl)
    as [w2 Henrich].
  erewrite bind_returns by exact Henrich.
  match goal with
  | |- ex (fun _ => ex (fun _ => ex (fun _ =>
         _create_dataframe ?s _ = _ /\ _))) =>
      destruct (_create_dataframe_returns s raw w2 eq_refl)
        as (table & Hrun & Hidx & Hfl & Hdate & Hbv & Hout)
  end.
  { unfold aligned. project_updates.
    rewrite !length_map. repeat split. }
  eexists. exists w2, table. split; [exact Hrun|].
  rewrite Hrecords, Hlen in *.
  repeat split; assumption.
Qed.

Lemma nth_error_map_eq {A B} (g : A -> B) l l' i y :
  map g l = l' -> nth_error l' i = Some y ->
  exists x, nth_error l i = Some x /\ g x = y.
Proof.
  intros <-. rewrite nth_error_map.
  destruct (nth_error l i) as [x|]; cbn; [|discriminate].
  intros [= <-]. now exists x.
Qed.

Lemma nth_error_seq_0 n i k : nth_error (seq 0 n) i = Some k -> k = i.
Proof.
  intros H.
  assert (Hi : i < n).
  { rewrite <- (length_seq n 0). apply nth_error_Some. congruence. }
  rewrite (nth_error_nth' _ 0) in H by now rewrite length_seq.
  rewrite seq_nth in H by exact Hi. now injection H.
Qed.

(** The row at position [i] of a table labelled 0, 1, 2, ... *)
Lemma table_row_at {R} (table : Frame R) n i :
  map fst table = seq 0 n -> i < n ->
  exists row, nth_error table i = Some (i, row).
Proof.
  intros Hidx Hi.
  assert (Hlen : List.length table = n).
  { rewrite <- (length_map fst), Hidx. apply length_seq. }
  destruct (nth_error table i) as [[k row]|] eqn:Hnth.
  - exists row. f_equal. f_equal.
    apply (nth_error_seq_0 n i k). rewrite <- Hidx, nth_error_map, Hnth.
    reflexivity.
  - apply nth_error_None in Hnth. lia.
Qed.

Lemma table_row_label {R} (table : Frame R) n i row :
  map fst table = seq 0 n -> In (i, row) table ->
  nth_error table i = Some (i, row).
Proof.
  intros Hidx Hin. apply In_nth_error in Hin as [k Hk].
  assert (i = k); [|now subst].
  apply (nth_error_seq_0 n k i). rewrite <- Hidx, nth_error_map, Hk.
  reflexivity.
Qed.

(** C9.  A retained entry whose rocket look-up failed gets the booster
    version [None]; [None != "Falcon 1"] holds, so its row, under the
    entry's position as label, is in [processed_data] at the end of the
    run. *)
Theorem failed_rocket_look_up_survives_the_filter
  net to_datetime limit response w i e msg :
  listing net SPACEX_LAUNCHES_URL = Ok response ->
  timestamps_accepted to_datetime response ->
  nth_error (filter (retained limit to_datetime) response) i = Some e ->
  document net (ROCKETS_URL ++ str (rocket e)) = RequestException msg ->
  exists self' w' processed row,
    process_all_data net to_datetime (init limit) w = (Returns self', w')
    /\ processed_data self' = Some processed
    /\ In (i, row) processed
    /\ BoosterVersion row = PyNone
    /\ FlightNumber row = flight_number e
    /\ ne_str PyNone "Falcon 1" = true.
Proof.
  intros Hlisting Hts Hnth Hfail.
  set (kept := filter (retained limit to_datetime) response) in *.
  assert (Hsome : map (record_of to_datetime) kept <> []).
  { destruct kept; [destruct i; discriminate Hnth | discriminate]. }
  destruct (process_all_data_returns net to_datetime limit response w
              Hlisting Hts Hsome)
    as (self' & w' & table & Hrun & Hproc & Hidx & Hfl & _ & Hbv & _).
  fold kept in Hidx, Hfl, Hbv. rewrite length_map in Hidx.
  assert (Hi : i < List.length kept)
    by (apply nth_error_Some; congruence).
  destruct (table_row_at table _ i Hidx Hi) as [row Hrow].
  exists self', w'. eexists. exists row.
  split; [exact Hrun|]. split; [exact Hproc|].
  assert (Hvalue : BoosterVersion row = PyNone /\
                   FlightNumber row = flight_number e).
  { split.
    - apply (f_equal (fun l => nth_error l i)) in Hbv.
      rewrite !nth_error_map, Hrow, Hnth in Hbv. cbn in Hbv.
      injection Hbv as ->. now rewrite (look_up_failed _ _ _ msg).
    - apply (f_equal (fun l => nth_error l i)) in Hfl.
      rewrite !nth_error_map, Hrow, Hnth in Hfl. cbn in Hfl.
      now injection Hfl. }
  destruct Hvalue as [Hnone Hflight].
  split; [|auto].
  apply In_select. split; [now apply nth_error_In in Hrow|].
  cbn [snd]. now rewrite Hnone.
Qed.

Lemma failed_rocket_look_up_survives_the_filter_witness :
  exists self' w' processed row,
    process_all_data sample_network_without_details iso8601_date
      (init default_limit_date) quiet_world = (Returns self', w')
    /\ processed_data self' = Some processed
    /\ In (0, row) processed
    /\ BoosterVersion row = PyNone
    /\ FlightNumber row = PyInt 107.
Proof.
  destruct (failed_rocket_look_up_survives_the_filter
              sample_network_without_details iso8601_date
              default_limit_date sample_listing quiet_world 0
              (sample_launch 107 "2020-11-13T10:00:00.000Z" [PyStr "p107"]
                 [sample_core])
              "503 Server Error" eq_refl sample_timestamps_accepted
              eq_refl eq_refl)
    as (self' & w' & processed & row & Hrun & Hproc & Hin & Hnone & Hfl & _).
  exists self', w', processed, row. auto.
Defined.

Lemma filter_map_columns {A B C D} (g : A -> C) (g' : B -> C)
  (b : A -> D) (b' : B -> D) (P : D -> bool) : forall l l',
  map g l = map g' l' ->
  map b l = map b' l' ->
  map g (filter (fun x => P (b x)) l) =
  map g' (filter (fun y => P (b' y)) l').
Proof.
  induction l as [|x l IH]; intros [|y l'] Hg Hb; cbn in *;
    try discriminate; [reflexivity|].
  injection Hg as Hgx Hg. injection Hb as Hbx Hb.
  rewrite Hbx. destruct (P (b' y)); cbn [map]; rewrite ?Hgx;
    now rewrite (IH l').
Qed.

(** C10.  At the end of a run the Date column of [processed_data] holds
    the [date_utc] text of each retained entry, as the listing gave it, and
    not the date derived from it: every retained entry whose booster is not
    "Falcon 1" has its row, under its position as label, with its own
    timestamp text as Date; every row of the table is the row of such an
    entry; and the column, read top to bottom, is the list of these texts
    in listing order.  The derived date served the cutoff test only. *)
Theorem date_column_holds_the_timestamp
  net to_datetime limit response w :
  listing net SPACEX_LAUNCHES_URL = Ok response ->
  timestamps_accepted to_datetime response ->
  let kept := filter (retained limit to_datetime) response in
  kept <> [] ->
  exists self' w' processed,
    process_all_data net to_datetime (init limit) w = (Returns self', w')
    /\ processed_data self' = Some processed
    /\ (forall i e,
          nth_error kept i = Some e ->
          field (look_up net ROCKETS_URL (rocket e)) "name"
          <> PyStr "Falcon 1" ->
          exists row, In (i, row) processed /\ Date row = date_utc e)
    /\ map (fun ir => Date (snd ir)) processed
       = map date_utc
           (filter
              (fun e =>
                 ne_str (field (look_up net ROCKETS_URL (rocket e)) "name")
                   "Falcon 1") kept)
    /\ forall i row,
         In (i, row) processed ->
         exists e,
           nth_error kept i = Some e
           /\ Date row = date_utc e
           /\ to_datetime (date_utc e) = Some (date (record_of to_datetime e))
           /\ date_le (date (record_of to_datetime e)) limit = true.
Proof.
  intros Hlisting Hts kept Hkept.
  assert (Hsome : map (record_of to_datetime) kept <> [])
    by (destruct kept; [now elim Hkept | discriminate]).
  destruct (process_all_data_returns net to_datetime limit response w
              Hlisting Hts Hsome)
    as (self' & w' & table & Hrun & Hproc & Hidx & _ & Hdate & Hbv & _).
  fold kept in Hidx, Hdate, Hbv. rewrite length_map in Hidx.
  rewrite map_map in Hdate, Hbv. cbn [date_utc rocket record_of] in Hdate, Hbv.
  exists self', w'. eexists. split; [exact Hrun|]. split; [exact Hproc|].
  split; [|split].
  - intros i e He Hne.
    assert (Hi : i < List.length kept)
      by (apply nth_error_Some; congruence).
    destruct (table_row_at table _ i Hidx Hi) as [row Hrow].
    exists row.
    apply (f_equal (fun l => nth_error l i)) in Hdate, Hbv.
    rewrite !nth_error_map, Hrow, He in Hdate, Hbv. cbn in Hdate, Hbv.
    injection Hdate as Hdate. injection Hbv as Hbv.
    split; [|exact Hdate].
    apply In_select. split; [now apply nth_error_In in Hrow|].
    cbn [snd]. rewrite Hbv. now apply ne_str_true.
  - unfold select.
    exact (filter_map_columns
             (fun ir : nat * LaunchRecord => Date (snd ir)) date_utc
             (fun ir : nat * LaunchRecord => BoosterVersion (snd ir))
             (fun e : Launch =>
                field (look_up net ROCKETS_URL (rocket e)) "name")
             (fun v => ne_str v "Falcon 1") table kept Hdate Hbv).
  - intros i row Hin. apply In_select in Hin as [Hin _].
    apply (table_row_label _ _ _ _ Hidx) in Hin.
    apply (f_equal (fun l => nth_error l i)) in Hdate.
    rewrite !nth_error_map, Hin in Hdate. cbn in Hdate.
    destruct (nth_error kept i) as [e|] eqn:He; [|discriminate Hdate].
    exists e. split; [reflexivity|]. cbn in Hdate. injection Hdate as ->.
    split; [reflexivity|].
    assert (Hret : retained limit to_datetime e = true).
    { apply nth_error_In in He. unfold kept in He.
      now apply filter_In in He. }
    destruct (retained_record _ _ _ Hret) as (_ & _ & ? & ?). auto.
Qed.

Lemma sample_listing_retained :
  filter (retained default_limit_date iso8601_date) sample_listing =
  [ sample_launch 107 "2020-11-13T10:00:00.000Z" [PyStr "p107"]
      [sample_core] ].
Proof. vm_compute. reflexivity. Defined.

Lemma sample_listing_retains_one :
  filter (retained default_limit_date iso8601_date) sample_listing <> [].
Proof. rewrite sample_listing_retained. discriminate. Defined.

Lemma date_column_holds_the_timestamp_witness :
  exists self' w' processed,
    process_all_data sample_network iso8601_date (init default_limit_date)
      quiet_world = (Returns self', w')
    /\ processed_data self' = Some processed
    /\ (exists row,
          In (0, row) processed /\ Date row = "2020-11-13T10:00:00.000Z")
    /\ map (fun ir => Date (snd ir)) processed
       = ["2020-11-13T10:00:00.000Z"]
    /\ forall i row,
         In (i, row) processed ->
         Date row = "2020-11-13T10:00:00.000Z".
Proof.
  destruct (date_column_holds_the_timestamp sample_network iso8601_date
              default_limit_date sample_listing quiet_world eq_refl
              sample_timestamps_accepted sample_listing_retains_one)
    as (self' & w' & processed & Hrun & Hproc & Hpresent & Hcolumn & Hrows).
  rewrite sample_listing_retained in Hpresent, Hcolumn, Hrows.
  exists self', w', processed. split; [exact Hrun|]. split; [exact Hproc|].
  split; [|split].
  - apply (Hpresent 0
             (sample_launch 107 "2020-11-13T10:00:00.000Z" [PyStr "p107"]
                [sample_core]) eq_refl).
    discriminate.
  - rewrite Hcolumn. reflexivity.
  - intros i row Hin. destruct (Hrows i row Hin) as (e & He & -> & _).
    destruct i as [|i];
      [now injection He as <- | destruct i; discriminate He].
Defined.

(** The run on the mock listing: two rows, for the first and the third
    entry, in that order. *)
Example mock_listing_run :
  match fst (process_all_data mock_network iso8601_date
               (init default_limit_date) quiet_world) with
  | Returns self' =>
      option_map
        (map (fun ir => (fst ir, FlightNumber (snd ir), Date (snd ir),
                         BoosterVersion (snd ir), Outcome (snd ir))))
        (processed_data self')
  | Raises _ => None
  end
  = Some [ (0, PyInt 1, "2010-06-04T18:45:00.000Z", PyStr "Falcon 9",
            "True ASDS");
           (1, PyInt 3, "2012-05-22T07:44:00.000Z", PyStr "Falcon 9",
            "True ASDS") ].
Proof. vm_compute. reflexivity. Qed.

(** The run on an empty listing ends in the [KeyError] of the column
    selection. *)
Example empty_listing_run :
  exists msg,
    fst (process_all_data empty_network iso8601_date
           (init default_limit_date) quiet_world) = Raises (KeyError msg).
Proof. eexists. reflexivity. Qed.

(** A look-up finds the object of a served URL and nothing elsewhere. *)
Example sample_look_ups :
  look_up sample_network ROCKETS_URL (PyStr "5e9d0d95eda69973a809d1ec")
  = Some [("name", PyStr "Falcon 9")]
  /\ look_up sample_network ROCKETS_URL (PyStr "") = None
  /\ look_up sample_network ROCKETS_URL PyNone = None
  /\ look_up sample_network CORES_URL (PyStr "5e9e28a6f35918c0803b265c")
     = None.
Proof. repeat split. Qed.

(** ** The exporter of the collector *)

Lemma export_to_csv_write_error self df filename (w : World Table) e :
  processed_data self = Some df ->
  write_error w filename = Some e ->
  export_to_csv self filename w = (Raises e, w).
Proof.
  intros Hdf He. unfold export_to_csv, bind, to_csv. now rewrite Hdf, He.
Qed.

(** C2 fails for the collector.  On a file system that refuses the write,
    [export_to_csv] does not log and return: the error of [to_csv] leaves
    the method, and nothing is logged.  [export_data_to_csv] of the scraper
    catches the same error, logs it at level ERROR and returns. *)
Theorem export_to_csv_lets_the_write_error_escape :
  export_to_csv (set_processed_data [] (init default_limit_date))
    "/SpaceX_API_data.csv" read_only_world
  = (Raises (OSError "[Errno 30] Read-only file system: /SpaceX_API_data.csv"),
     read_only_world)
  /\ Falcon9Scraper.export_data_to_csv
       {| Falcon9Scraper.columns := ["Flight No."];
          Falcon9Scraper.values := [[Some "1"]] |}
       "/spaceX_web_scraped.csv" read_only_world
     = (Returns tt,
        logged ERROR
          ("Error exporting data to CSV: "
           ++ "[Errno 30] Read-only file system: /spaceX_web_scraped.csv")
          read_only_world).
Proof. split; reflexivity. Qed.

(** ** Methods that only log *)

Section LogsOnly.

Context {T : Type}.

Lemma only_logged_refl (w : World T) : only_logged w w.
Proof.
  repeat split. exists []. now rewrite app_nil_r.
Qed.

Lemma only_logged_trans (w1 w2 w3 : World T) :
  only_logged w1 w2 -> only_logged w2 w3 -> only_logged w1 w3.
Proof.
  intros (He1 & Hf1 & r1 & Hl1) (He2 & Hf2 & r2 & Hl2).
  repeat split; [congruence | congruence |].
  exists (r1 ++ r2). now rewrite Hl2, Hl1, app_assoc.
Qed.

Lemma logs_only_ret {A} (a : A) : logs_only (T := T) (ret a).
Proof. intros w. apply only_logged_refl. Qed.

Lemma logs_only_raise {A} e : logs_only (T := T) (A := A) (raise e).
Proof. intros w. apply only_logged_refl. Qed.

Lemma logs_only_log lvl msg : logs_only (T := T) (log lvl msg).
Proof. intros w. repeat split. now eexists. Qed.

Lemma logs_only_logging_error msg : logs_only (T := T) (logging_error msg).
Proof. apply logs_only_log. Qed.

Lemma logs_only_logging_info msg : logs_only (T := T) (logging_info msg).
Proof. apply logs_only_log. Qed.

Lemma logs_only_bind {A B} (m : M T A) (f : A -> M T B) :
  logs_only m -> (forall a, logs_only (f a)) -> logs_only (bind m f).
Proof.
  intros Hm Hf w. unfold bind. specialize (Hm w).
  destruct (m w) as [[a|e] w1]; cbn [snd] in *; [|exact Hm].
  apply (only_logged_trans w w1); [exact Hm | apply Hf].
Qed.

Lemma logs_only_lift {A} (o : outcome A) : logs_only (T := T) (lift o).
Proof. destruct o; [apply logs_only_ret | apply logs_only_raise]. Qed.

Lemma logs_only_for_each {S A} (body : A -> S -> M T S) xs :
  (forall x s, logs_only (body x s)) ->
  forall s, logs_only (for_each xs body s).
Proof.
  intros Hbody. induction xs as [|x xs IH]; intros s; cbn [for_each].
  - apply logs_only_ret.
  - apply logs_only_bind; [apply Hbody | exact IH].
Qed.

End LogsOnly.

Lemma logs_only_fetch_json {A} (get_ : string -> Response A) url :
  logs_only (fetch_json get_ url).
Proof.
  unfold fetch_json. destruct (get_ url).
  - apply logs_only_ret.
  - apply logs_only_bind; [apply logs_only_logging_error|].
    intros _. apply logs_only_ret.
Qed.

(** Decomposes a method into its calls. *)
Ltac logs_only :=
  cbv zeta;
  repeat first
    [ apply logs_only_ret
    | apply logs_only_raise
    | apply logs_only_logging_error
    | apply logs_only_logging_info
    | apply logs_only_lift
    | apply logs_only_fetch_json
    | apply logs_only_bind; [|intros ?]
    | apply logs_only_for_each; intros ? ?
    | match goal with
      | |- logs_only (if ?b then _ else _) => destruct b
      | |- logs_only (match ?x with _ => _ end) => destruct x
      end
    | progress cbv zeta ].

Lemma logs_only_fetch_launch_data net to_datetime self :
  logs_only (fetch_launch_data net to_datetime self).
Proof. unfold fetch_launch_data. logs_only. Qed.

Lemma logs_only_get_booster_version_data net self :
  logs_only (get_booster_version_data net self).
Proof. unfold get_booster_version_data. logs_only. Qed.

Lemma logs_only_get_launch_site_data net self :
  logs_only (get_launch_site_data net self).
Proof. unfold get_launch_site_data. logs_only. Qed.

Lemma logs_only_get_payload_data net self :
  logs_only (get_payload_data net self).
Proof. unfold get_payload_data. logs_only. Qed.

Lemma logs_only_get_core_data net self :
  logs_only (get_core_data net self).
Proof. unfold get_core_data. logs_only. Qed.

Lemma logs_only__create_dataframe self : logs_only (_create_dataframe self).
Proof. unfold _create_dataframe. logs_only. Qed.

Lemma logs_only_process_all_data net to_datetime self :
  logs_only (process_all_data net to_datetime self).
Proof.
  unfold process_all_data, enrichment.
  apply logs_only_bind; [apply logs_only_fetch_launch_data|]. intros self1.
  destruct (raw_data self1) as [[|ir raw]|].
  - logs_only.
  - apply logs_only_bind; [|intros ?; apply logs_only__create_dataframe].
    apply logs_only_bind;
      [apply logs_only_get_booster_version_data | intros ?].
    apply logs_only_bind; [apply logs_only_get_launch_site_data | intros ?].
    apply logs_only_bind; [apply logs_only_get_payload_data | intros ?].
    apply logs_only_get_core_data.
  - logs_only.
Qed.

(** X10.  [process_all_data] never touches the file system: whatever the
    network answers and whether the method returns or raises, the files
    and the write permissions after it are those before it, and the log
    after it is the log before it with records added at its end.  Only the
    exporter writes. *)
Theorem process_all_data_only_logs net to_datetime self (w : World Table) :
  let w' := snd (process_all_data net to_datetime self w) in
  files w' = files w
  /\ write_error w' = write_error w
  /\ exists records, logs w' = logs w ++ records.
Proof.
  destruct (logs_only_process_all_data net to_datetime self w)
    as (He & Hf & Hl).
  auto.
Qed.

(** ** Worlds *)

Lemma add_logs_nil {T} (w : World T) : add_logs [] w = w.
Proof. destruct w. unfold add_logs. cbn. now rewrite app_nil_r. Qed.

Lemma add_logs_app {T} r1 r2 (w : World T) :
  add_logs r2 (add_logs r1 w) = add_logs (r1 ++ r2) w.
Proof. unfold add_logs. cbn. now rewrite app_assoc. Qed.

Lemma logged_add_logs {T} lvl msg (w : World T) :
  logged lvl msg w = add_logs [{| level := lvl; message := msg |}] w.
Proof. reflexivity. Qed.

(** ** The ways [fetch_launch_data] ends *)

Lemma In_range_index_inv {R} (rows : list R) r :
  In r rows -> exists i, In (i, r) (range_index rows).
Proof.
  intros H. rewrite <- (map_snd_range_index rows) in H.
  apply in_map_iff in H as ([i r'] & Heq & Hin). cbn in Heq. subst r'.
  now exists i.
Qed.

Lemma assign_derive_date_rejected {C P D} to_datetime
  (df : Frame (Row C P D)) :
  (exists ir, In ir df /\ to_datetime (date_utc (snd ir)) = None) ->
  exists msg, assign (derive_date to_datetime) df = Raises (ValueError msg).
Proof.
  induction df as [|[i r] df IH]; intros (ir & Hin & Hnone); [destruct Hin|].
  cbn [assign]. unfold derive_date at 1.
  destruct (to_datetime (date_utc r)) as [d|] eqn:Hd; [|now eexists].
  destruct Hin as [<-|Hin]; [cbn in Hnone; congruence|].
  destruct IH as [msg Hmsg]; [now exists ir|].
  exists msg. now rewrite Hmsg.
Qed.

Lemma timestamps_accepted_dec to_datetime response :
  timestamps_accepted to_datetime response
  \/ exists e,
       In e response
       /\ List.length (cores e) = 1 /\ List.length (payloads e) = 1
       /\ to_datetime (date_utc e) = None.
Proof.
  induction response as [|e response [IH|(e' & Hin & H)]].
  - left. intros e [].
  - destruct (Nat.eq_dec (List.length (cores e)) 1) as [Hc|Hc];
      [destruct (Nat.eq_dec (List.length (payloads e)) 1) as [Hp|Hp];
       [destruct (to_datetime (date_utc e)) eqn:Hd|]|].
    + left. intros e' [<-|Hin] ? ?; [congruence | now apply IH].
    + right. exists e. repeat split; auto. now left.
    + left. intros e' [<-|Hin] ? ?; [contradiction | now apply IH].
    + left. intros e' [<-|Hin] ? ?; [contradiction | now apply IH].
  - right. exists e'. split; [now right | exact H].
Qed.

Lemma fetch_launch_data_rejected net to_datetime self response w :
  listing net SPACEX_LAUNCHES_URL = Ok response ->
  (exists e,
     In e response
     /\ List.length (cores e) = 1 /\ List.length (payloads e) = 1
     /\ to_datetime (date_utc e) = None) ->
  exists msg,
    fetch_launch_data net to_datetime self w =
    (Raises (ValueError msg), logged INFO "Columns in the raw data" w).
Proof.
  intros Hlisting (e & Hin & Hc & Hp & Hnone). unfold fetch_launch_data.
  erewrite bind_returns
    by (unfold fetch_json; rewrite Hlisting; reflexivity).
  cbv beta iota zeta. erewrite bind_returns by reflexivity.
  assert (Hcolumns : required_columns (json_normalize response)
                     = Returns (json_normalize response))
    by (destruct response; [destruct Hin | reflexivity]).
  rewrite Hcolumns. cbn [lift]. erewrite bind_returns by reflexivity.
  set (df2 := select (fun r : Launch => (List.length (payloads r) =? 1)%nat)
                (select (fun r : Launch => (List.length (cores r) =? 1)%nat)
                   (json_normalize response))).
  assert (Hdf2 : forall ir, In ir df2 ->
            List.length (cores (snd ir)) = 1
            /\ List.length (payloads (snd ir)) = 1).
  { intros ir Hir. unfold df2, select in Hir.
    apply filter_In in Hir as [Hir Hp']. apply filter_In in Hir as [_ Hc'].
    apply Nat.eqb_eq in Hp', Hc'. auto. }
  assert (He : exists i, In (i, e) df2).
  { destruct (In_range_index_inv response e Hin) as [i Hi]. exists i.
    unfold df2, select. apply filter_In. split; [apply filter_In; split|].
    - exact Hi.
    - cbn [snd]. now apply Nat.eqb_eq.
    - cbn [snd]. now apply Nat.eqb_eq. }
  pose (gc := fun r : Launch =>
    {| rocket := rocket r; payloads := payloads r; launchpad := launchpad r;
       cores := hd [] (cores r); flight_number := flight_number r;
       date_utc := date_utc r; date := date r |}).
  pose (gp := fun r : Row Dict (list Scalar) unit =>
    {| rocket := rocket r; payloads := hd PyNone (payloads r);
       launchpad := launchpad r; cores := cores r;
       flight_number := flight_number r;
       date_utc := date_utc r; date := date r |}).
  rewrite (assign_map unwrap_cores gc).
  2:{ intros ir Hir. destruct (Hdf2 ir Hir) as (Hc' & _).
      destruct ir as [i [rk pl lp cs fl du dt]]. cbn in Hc'.
      unfold unwrap_cores, gc. cbn [snd cores].
      destruct cs; [discriminate Hc' | reflexivity]. }
  cbn [lift]. erewrite bind_returns by reflexivity.
  rewrite (assign_map unwrap_payloads gp).
  2:{ intros ir Hir. apply in_map_iff in Hir as (ir0 & <- & Hir0).
      destruct (Hdf2 ir0 Hir0) as (_ & Hp').
      destruct ir0 as [i [rk pl lp cs fl du dt]]. cbn in Hp'.
      unfold unwrap_payloads, gp, gc. cbn [snd payloads].
      destruct pl; [discriminate Hp' | reflexivity]. }
  cbn [lift]. erewrite bind_returns by reflexivity.
  destruct He as [i He].
  match goal with
  | |- context [assign (derive_date to_datetime) ?df] =>
      destruct (assign_derive_date_rejected to_datetime df) as [msg Hmsg]
  end.
  { exists (i, gp (gc e)). split; [|exact Hnone].
    apply in_map_iff. exists (i, gc e). split; [reflexivity|].
    apply in_map_iff. now exists (i, e). }
  exists msg. rewrite Hmsg. reflexivity.
Qed.

(** X11.  The ways [fetch_launch_data] ends.  When the listing request
    fails it returns with the extractor as it was.  On an empty listing the
    selection of the columns raises [KeyError].  On a listing with entries
    it returns with [raw_data] set when the parser accepts the timestamp of
    every entry with one core and one payload, and raises [ValueError] when
    it rejects one.  Unwrapping the singleton lists never raises: no
    [IndexError] leaves the method. *)
Theorem fetch_launch_data_outcomes net to_datetime self (w : World Table) :
  let result := fst (fetch_launch_data net to_datetime self w) in
  match listing net SPACEX_LAUNCHES_URL with
  | RequestException _ => result = Returns self
  | Ok [] => exists msg, result = Raises (KeyError msg)
  | Ok response =>
      (timestamps_accepted to_datetime response
       /\ result =
          Returns
            (set_raw_data
               (range_index
                  (map (record_of to_datetime)
                     (filter (retained (limit_date self) to_datetime)
                        response))) self))
      \/ ((exists e,
             In e response
             /\ List.length (cores e) = 1 /\ List.length (payloads e) = 1
             /\ to_datetime (date_utc e) = None)
          /\ exists msg, result = Raises (ValueError msg))
  end.
Proof.
  intros result. unfold result.
  destruct (listing net SPACEX_LAUNCHES_URL) as [response|error] eqn:Hl.
  - destruct response as [|e0 response'] eqn:Hresponse.
    + destruct (fetch_launch_data_empty_listing net to_datetime self w Hl)
        as [msg Hmsg].
      exists msg. now rewrite Hmsg.
    + rewrite <- Hresponse in *.
      destruct (timestamps_accepted_dec to_datetime response) as [Hts|Hrej].
      * left. split; [exact Hts|].
        rewrite (fetch_launch_data_returns net to_datetime self response w);
          [reflexivity | exact Hl | subst; discriminate | exact Hts].
      * right. split; [exact Hrej|].
        destruct (fetch_launch_data_rejected net to_datetime self response w
                    Hl Hrej) as [msg Hmsg].
        exists msg. now rewrite Hmsg.
  - unfold fetch_launch_data, fetch_json. rewrite Hl. reflexivity.
Qed.

(** ** The whole pipeline *)

(** X12.  When the request for the primary listing fails, [main] ends
    quietly: every stage logs its error (the fetch, the normalizer, the
    run, the exporter), no look-up is made, no file is written, and [main]
    returns. *)
Theorem main_without_listing_writes_nothing net to_datetime
  (w : World Table) error :
  listing net SPACEX_LAUNCHES_URL = RequestException error ->
  main net to_datetime w =
  (Returns tt,
   add_logs
     [ {| level := ERROR;
          message := "Error fetching data from " ++ SPACEX_LAUNCHES_URL
                     ++ ": " ++ error |};
       {| level := ERROR; message := "Failed to retrieve launch data." |};
       {| level := ERROR; message := "No data available to process." |};
       {| level := ERROR;
          message :=
            "No processed data available. Run process_all_data() first." |} ]
     w).
Proof.
  intros Hlisting.
  unfold main, process_all_data, fetch_launch_data, fetch_json.
  rewrite Hlisting.
  unfold export_to_csv, bind, ret, logging_error, log. cbn.
  unfold logged, add_logs. cbn. now rewrite <- !app_assoc.
Qed.

Lemma main_without_listing_writes_nothing_witness :
  fst (main offline_network iso8601_date quiet_world) = Returns tt
  /\ files (snd (main offline_network iso8601_date quiet_world)) = [].
Proof.
  rewrite (main_without_listing_writes_nothing offline_network iso8601_date
             quiet_world "Connection refused" eq_refl).
  split; reflexivity.
Defined.

(** X13.  When the listing has entries but none is retained (each has
    several payloads or cores, or is dated after the cutoff), the run stops
    after the normalizer: [main] logs that there is no data, makes no
    look-up, writes no file, and returns. *)
Theorem main_without_retained_entry_writes_nothing net to_datetime
  (w : World Table) response :
  listing net SPACEX_LAUNCHES_URL = Ok response ->
  response <> [] ->
  timestamps_accepted to_datetime response ->
  filter (retained default_limit_date to_datetime) response = [] ->
  exists columns_message,
    main net to_datetime w =
    (Returns tt,
     add_logs
       [ {| level := INFO; message := columns_message |};
         {| level := ERROR; message := "No data available to process." |};
         {| level := ERROR;
            message :=
              "No processed data available. Run process_all_data() first."
         |} ]
       w).
Proof.
  intros Hlisting Hentries Hts Hkept. eexists.
  unfold main, process_all_data.
  erewrite bind_returns.
  2:{ erewrite bind_returns
        by (apply fetch_launch_data_returns; eassumption).
      cbn [limit_date init]. rewrite Hkept. reflexivity. }
  unfold export_to_csv, bind, ret, logging_error, log. cbn.
  unfold logged, add_logs. cbn. now rewrite <- !app_assoc.
Qed.

Lemma late_listing_accepted :
  timestamps_accepted iso8601_date
    [sample_launch 110 "2020-12-06T16:17:00.000Z" [PyStr "p110"]
       [sample_core]].
Proof.
  intros e [<-|[]] _ _. cbn. discriminate.
Defined.

Lemma main_without_retained_entry_writes_nothing_witness :
  fst (main late_network iso8601_date quiet_world) = Returns tt
  /\ files (snd (main late_network iso8601_date quiet_world)) = [].
Proof.
  destruct (main_without_retained_entry_writes_nothing late_network
              iso8601_date quiet_world
              [sample_launch 110 "2020-12-06T16:17:00.000Z" [PyStr "p110"]
                 [sample_core]]
              eq_refl ltac:(discriminate) late_listing_accepted eq_refl)
    as [columns_message Hrun].
  rewrite Hrun. split; reflexivity.
Defined.

(** X14.  When at least one entry is retained and the file system takes
    the write, [main] returns and has written, under the default file
    name, the table of the retained entries without the rows of
    "Falcon 1"; the files that were there stay, and the last log record is
    the success message. *)
Theorem main_exports_the_processed_table net to_datetime (w : World Table)
  response :
  listing net SPACEX_LAUNCHES_URL = Ok response ->
  timestamps_accepted to_datetime response ->
  let records :=
    map (record_of to_datetime)
      (filter (retained default_limit_date to_datetime) response) in
  records <> [] ->
  write_error w default_filename = None ->
  exists table w',
    main net to_datetime w = (Returns tt, w')
    /\ files w'
       = (default_filename,
          select (fun r => ne_str (BoosterVersion r) "Falcon 1") table)
         :: files w
    /\ map fst table = seq 0 (List.length records)
    /\ map (fun ir => FlightNumber (snd ir)) table
       = map flight_number records
    /\ map (fun ir => Date (snd ir)) table = map date_utc records
    /\ map (fun ir => BoosterVersion (snd ir)) table
       = map (fun r => field (look_up net ROCKETS_URL (rocket r)) "name")
           records
    /\ last (logs w') {| level := ERROR; message := "" |}
       = {| level := INFO;
            message := "Data exported to " ++ default_filename |}.
Proof.
  intros Hlisting Hts records Hsome Hwrite.
  destruct (process_all_data_returns net to_datetime default_limit_date
              response w Hlisting Hts Hsome)
    as (self' & w1 & table & Hrun & Hproc & Hidx & Hfl & Hdate & Hbv & _).
  destruct (logs_only_process_all_data net to_datetime
              (init default_limit_date) w) as (He & Hf & _).
  rewrite Hrun in He, Hf. cbn [snd] in He, Hf.
  exists table. eexists. split.
  { unfold main. erewrite bind_returns by exact Hrun.
    unfold export_to_csv. rewrite Hproc. unfold bind, to_csv.
    rewrite He, Hwrite. reflexivity. }
  cbn [files logs logged]. rewrite Hf, last_last. auto 10.
Qed.

Lemma main_exports_the_processed_table_witness :
  exists (table : Table) w',
    main sample_network iso8601_date quiet_world = (Returns tt, w')
    /\ map fst (files w') = [default_filename]
    /\ map (fun ir => FlightNumber (snd ir)) table = [PyInt 107].
Proof.
  destruct (main_exports_the_processed_table sample_network iso8601_date
              quiet_world sample_listing eq_refl sample_timestamps_accepted)
    as (table & w' & Hrun & Hfiles & _ & Hfl & _).
  - rewrite sample_listing_retained. discriminate.
  - reflexivity.
  - exists table, w'. split; [exact Hrun|]. split.
    + now rewrite Hfiles.
    + rewrite Hfl, sample_listing_retained. reflexivity.
Defined.

(** ** Accumulators out of step *)

Lemma DataFrame_of_columns_misaligned flight_numbers timestamps self n :
  List.length flight_numbers = n ->
  List.length timestamps = n ->
  ~ aligned self n ->
  DataFrame_of_columns flight_numbers timestamps self =
  Raises (ValueError "All arrays must be of the same length").
Proof.
  intros Hf Ht Hnot. unfold DataFrame_of_columns. rewrite Hf, Ht.
  destruct (forallb _ _) eqn:Hall; [|reflexivity].
  exfalso. apply Hnot. cbn [forallb] in Hall.
  repeat match type of Hall with
         | (_ && _)%bool = true =>
             let H := fresh "Hlen" in
             apply andb_prop in Hall as [H Hall];
             apply Nat.eqb_eq in H; symmetry in H
         end.
  unfold aligned. repeat split; assumption.
Qed.

(** X15.  [_create_dataframe] needs every accumulator to have the length
    of [raw_data]: when one has another length, pandas refuses the
    columns, the [ValueError] leaves the method, and the extractor and the
    world are as before. *)
Theorem _create_dataframe_needs_aligned_accumulators self raw
  (w : World Table) :
  raw_data self = Some raw ->
  ~ aligned self (List.length raw) ->
  _create_dataframe self w =
  (Raises (ValueError "All arrays must be of the same length"), w).
Proof.
  intros Hraw Hnot. unfold _create_dataframe. rewrite Hraw.
  rewrite (DataFrame_of_columns_misaligned _ _ self (List.length raw));
    [reflexivity | apply length_map | apply length_map | exact Hnot].
Qed.

Lemma sample_misaligned_not_aligned :
  ~ aligned sample_misaligned (List.length sample_raw_data).
Proof. intros [H _]. discriminate H. Defined.

Lemma _create_dataframe_needs_aligned_accumulators_witness :
  _create_dataframe sample_misaligned quiet_world =
  (Raises (ValueError "All arrays must be of the same length"), quiet_world).
Proof.
  apply (_create_dataframe_needs_aligned_accumulators sample_misaligned
           sample_raw_data quiet_world eq_refl
           sample_misaligned_not_aligned).
Defined.

(** ** The cutoff *)

Lemma date_le_lex a b :
  date_le a b = true <->
  year a < year b
  \/ (year a = year b
      /\ (month a < month b \/ (month a = month b /\ day a <= day b))).
Proof.
  unfold date_le.
  destruct (Nat.ltb_spec (year a) (year b)); [split; [auto | reflexivity]|].
  destruct (Nat.ltb_spec (year b) (year a)); [split; [discriminate | lia]|].
  destruct (Nat.ltb_spec (month a) (month b));
    [split; [intros _; lia | reflexivity]|].
  destruct (Nat.ltb_spec (month b) (month a)); [split; [discriminate | lia]|].
  rewrite Nat.leb_le. lia.
Qed.

Lemma date_le_trans a b c :
  date_le a b = true -> date_le b c = true -> date_le a c = true.
Proof. rewrite !date_le_lex. lia. Qed.

(** X16.  A later cutoff keeps more: when the cutoff of one extractor is
    at most the cutoff of another, every raw record [fetch_launch_data]
    leaves in the first is also left in the second. *)
Theorem later_cutoff_keeps_more net to_datetime self1 self2 response
  (w1 w2 : World Table) :
  listing net SPACEX_LAUNCHES_URL = Ok response ->
  response <> [] ->
  timestamps_accepted to_datetime response ->
  date_le (limit_date self1) (limit_date self2) = true ->
  exists raw1 raw2 w1' w2',
    fetch_launch_data net to_datetime self1 w1 =
    (Returns (set_raw_data raw1 self1), w1')
    /\ fetch_launch_data net to_datetime self2 w2 =
       (Returns (set_raw_data raw2 self2), w2')
    /\ incl (map snd raw1) (map snd raw2).
Proof.
  intros Hlisting Hentries Hts Hle.
  do 4 eexists. split; [|split].
  - apply fetch_launch_data_returns; eassumption.
  - apply fetch_launch_data_returns; eassumption.
  - rewrite !map_snd_range_index. intros r Hr.
    apply in_map_iff in Hr as (e & <- & He). apply in_map.
    apply filter_In in He as [Hin Hret]. apply filter_In. split; [exact Hin|].
    unfold retained in *.
    apply andb_prop in Hret as [Harity Hd]. rewrite Harity. cbn [andb].
    destruct (to_datetime (date_utc e)) as [d|]; [|discriminate Hd].
    now apply date_le_trans with (limit_date self1).
Qed.

Lemma later_cutoff_keeps_more_witness :
  exists raw1 raw2 w1' w2',
    fetch_launch_data sample_network iso8601_date (init default_limit_date)
      quiet_world =
    (Returns (set_raw_data raw1 (init default_limit_date)), w1')
    /\ fetch_launch_data sample_network iso8601_date
         (init {| year := 2020; month := 11; day := 14 |}) quiet_world =
       (Returns
          (set_raw_data raw2
             (init {| year := 2020; month := 11; day := 14 |})), w2')
    /\ incl (map snd raw1) (map snd raw2).
Proof.
  apply (later_cutoff_keeps_more sample_network iso8601_date
           (init default_limit_date)
           (init {| year := 2020; month := 11; day := 14 |})
           sample_listing quiet_world quiet_world eq_refl
           sample_listing_has_entries sample_timestamps_accepted eq_refl).
Defined.

(** ** A second run *)

(** The state a first run leaves. *)
Lemma process_all_data_first_run net to_datetime limit response w :
  listing net SPACEX_LAUNCHES_URL = Ok response ->
  timestamps_accepted to_datetime response ->
  let records :=
    map (record_of to_datetime)
      (filter (retained limit to_datetime) response) in
  records <> [] ->
  exists self' w',
    process_all_data net to_datetime (init limit) w = (Returns self', w')
    /\ limit_date self' = limit
    /\ booster_versions self'
       = map (fun r => field (look_up net ROCKETS_URL (rocket r)) "name")
           records.
Proof.
  intros Hlisting Hts records Hsome.
  assert (Hentries : response <> []) by (intros ->; now apply Hsome).
  unfold process_all_data.
  erewrite bind_returns
    by (apply fetch_launch_data_returns; eassumption).
  cbn [limit_date init]. fold records.
  set (raw := range_index records).
  assert (Hrecords : map snd raw = records) by apply map_snd_range_index.
  assert (Hlen : List.length raw = List.length records)
    by apply length_range_index.
  cbn [raw_data set_raw_data].
  destruct raw as [|ir raw'] eqn:Hraw.
  { destruct records; [now elim Hsome | discriminate Hlen]. }
  rewrite <- Hraw in *. clear Hraw ir raw'.
  destruct (enrichment_returns net (set_raw_data raw (init limit)) raw
              (logged INFO "Columns in the raw data" w) eq_refl)
    as [w2 Henrich].
  erewrite bind_returns by exact Henrich.
  match goal with
  | |- ex (fun _ => ex (fun _ => _create_dataframe ?s _ = _ /\ _)) =>
      destruct (_create_dataframe_returns s raw w2 eq_refl)
        as (table & Hrun & _)
  end.
  { unfold aligned. project_updates.
    rewrite !length_map. repeat split. }
  eexists. exists w2. split; [exact Hrun|].
  project_updates. rewrite Hrecords. split; reflexivity.
Qed.

(** A run on an extractor that already holds booster versions. *)
Lemma process_all_data_on_a_used_extractor net to_datetime self response w :
  listing net SPACEX_LAUNCHES_URL = Ok response ->
  timestamps_accepted to_datetime response ->
  filter (retained (limit_date self) to_datetime) response <> [] ->
  booster_versions self <> [] ->
  exists w',
    process_all_data net to_datetime self w =
    (Raises (ValueError "All arrays must be of the same length"), w').
Proof.
  intros Hlisting Hts Hkept Hused.
  assert (Hentries : response <> []) by (intros ->; now apply Hkept).
  unfold process_all_data.
  erewrite bind_returns
    by (apply fetch_launch_data_returns; eassumption).
  set (records := map (record_of to_datetime)
                    (filter (retained (limit_date self) to_datetime)
                       response)).
  set (raw := range_index records).
  assert (Hlen : List.length raw = List.length records)
    by apply length_range_index.
  cbn [raw_data set_raw_data].
  destruct raw as [|ir raw'] eqn:Hraw.
  { unfold records in Hlen. rewrite length_map in Hlen.
    destruct (filter (retained (limit_date self) to_datetime) response);
      [now elim Hkept | discriminate Hlen]. }
  rewrite <- Hraw in *. clear Hraw ir raw'.
  destruct (enrichment_returns net (set_raw_data raw self) raw
              (logged INFO "Columns in the raw data" w) eq_refl)
    as [w2 Henrich].
  erewrite bind_returns by exact Henrich.
  exists w2. unfold _create_dataframe. project_updates.
  rewrite (DataFrame_of_columns_misaligned _ _ _ (List.length raw));
    [reflexivity | apply length_map | apply length_map |].
  intros [Hbv _]. revert Hbv. project_updates.
  rewrite length_app, !length_map.
  destruct (booster_versions self); [now elim Hused | cbn; lia].
Qed.

(** X17.  The accumulators are never emptied: after a run that retained
    at least one entry, a second [process_all_data] on the same extractor
    appends to the lists of the first, the lists no longer have the length
    of [raw_data], and the run ends in the [ValueError] of
    [_create_dataframe]. *)
Theorem second_run_raises net to_datetime limit response (w : World Table) :
  listing net SPACEX_LAUNCHES_URL = Ok response ->
  timestamps_accepted to_datetime response ->
  filter (retained limit to_datetime) response <> [] ->
  exists self1 w1 w2,
    process_all_data net to_datetime (init limit) w = (Returns self1, w1)
    /\ process_all_data net to_datetime self1 w1 =
       (Raises (ValueError "All arrays must be of the same length"), w2).
Proof.
  intros Hlisting Hts Hkept.
  destruct (process_all_data_first_run net to_datetime limit response w
              Hlisting Hts) as (self1 & w1 & Hrun & Hlimit & Hbv).
  { destruct (filter (retained limit to_datetime) response);
      [now elim Hkept | discriminate]. }
  destruct (process_all_data_on_a_used_extractor net to_datetime self1
              response w1 Hlisting Hts) as [w2 Hagain].
  - now rewrite Hlimit.
  - rewrite Hbv.
    destruct (filter (retained limit to_datetime) response);
      [now elim Hkept | discriminate].
  - now exists self1, w1, w2.
Qed.

Lemma second_run_raises_witness :
  exists self1 w1 w2,
    process_all_data sample_network iso8601_date (init default_limit_date)
      quiet_world = (Returns self1, w1)
    /\ process_all_data sample_network iso8601_date self1 w1 =
       (Raises (ValueError "All arrays must be of the same length"), w2).
Proof.
  apply (second_run_raises sample_network iso8601_date default_limit_date
           sample_listing quiet_world eq_refl sample_timestamps_accepted
           sample_listing_retains_one).
Defined.

(** ** What enrichment logs *)

Lemma for_each_logs {T S A} (body : A -> S -> M T S)
  (trace : A -> list LogRecord) :
  (forall x s w, exists s', body x s w = (Returns s', add_logs (trace x) w)) ->
  forall xs s w,
    exists s',
      for_each xs body s w = (Returns s', add_logs (flat_map trace xs) w).
Proof.
  intros Hbody xs.
  induction xs as [|x xs IH]; intros s w; cbn [for_each flat_map].
  - exists s. unfold ret. now rewrite add_logs_nil.
  - destruct (Hbody x s w) as [s1 H1].
    destruct (IH s1 (add_logs (trace x) w)) as [s2 H2].
    exists s2. erewrite bind_returns by exact H1.
    now rewrite H2, add_logs_app.
Qed.

(** One guarded fetch: what is in [response], and what was logged. *)
Lemma fetch_json_logs net base id (w : World Table) :
  truthy id = true ->
  exists response,
    fetch_json (document net) (base ++ str id) w =
    (Returns response, add_logs (look_up_errors net base id) w).
Proof.
  intros Hid. unfold fetch_json, look_up_errors. rewrite Hid.
  destruct (document net (base ++ str id)) as [d|error].
  - exists (Some d). unfold ret. now rewrite add_logs_nil.
  - now eexists.
Qed.

Ltac loop_body_logs net base x w :=
  let H := fresh "Hid" in
  cbv beta;
  destruct (truthy x) eqn:H;
  [ let response := fresh "response" in
    let Hf := fresh "Hfetch" in
    destruct (fetch_json_logs net base x w H) as [response Hf];
    cbv beta iota zeta; erewrite bind_returns by exact Hf;
    destruct (nonempty response); eexists; reflexivity
  | unfold look_up_errors; rewrite H; eexists; unfold ret;
    rewrite add_logs_nil; reflexivity ].

Ltac run_loop_logs trace body_tac :=
  match goal with
  | |- snd (for_each ?xs ?body ?s ?w) = _ =>
      let Hb := fresh "Hbody" in
      let s1 := fresh "s" in
      let Hloop := fresh "Hloop" in
      assert (Hb : forall x s0 w0,
                 exists s', body x s0 w0 = (Returns s', add_logs (trace x) w0))
        by (let x := fresh "x" in
            let s0 := fresh "s" in
            let w0 := fresh "w" in
            intros x s0 w0; body_tac x w0);
      destruct (for_each_logs body trace Hb xs s w) as [s1 Hloop];
      rewrite Hloop; cbn [snd]
  end.

Lemma get_booster_version_data_logs net self raw (w : World Table) :
  raw_data self = Some raw ->
  snd (get_booster_version_data net self w) =
  add_logs
    (flat_map (fun r => look_up_errors net ROCKETS_URL (rocket r))
       (map snd raw)) w.
Proof.
  intros Hraw. unfold get_booster_version_data. rewrite Hraw.
  run_loop_logs (look_up_errors net ROCKETS_URL)
    ltac:(fun x w0 => loop_body_logs net ROCKETS_URL x w0).
  now rewrite <- (map_map snd rocket), !flat_map_concat_map, !map_map.
Qed.

Lemma get_launch_site_data_logs net self raw (w : World Table) :
  raw_data self = Some raw ->
  snd (get_launch_site_data net self w) =
  add_logs
    (flat_map (fun r => look_up_errors net LAUNCHPADS_URL (launchpad r))
       (map snd raw)) w.
Proof.
  intros Hraw. unfold get_launch_site_data. rewrite Hraw.
  run_loop_logs (look_up_errors net LAUNCHPADS_URL)
    ltac:(fun x w0 => loop_body_logs net LAUNCHPADS_URL x w0).
  now rewrite <- (map_map snd launchpad), !flat_map_concat_map, !map_map.
Qed.

Lemma get_payload_data_logs net self raw (w : World Table) :
  raw_data self = Some raw ->
  snd (get_payload_data net self w) =
  add_logs
    (flat_map (fun r => look_up_errors net PAYLOADS_URL (payloads r))
       (map snd raw)) w.
Proof.
  intros Hraw. unfold get_payload_data. rewrite Hraw.
  run_loop_logs (look_up_errors net PAYLOADS_URL)
    ltac:(fun x w0 => loop_body_logs net PAYLOADS_URL x w0).
  now rewrite <- (map_map snd payloads), !flat_map_concat_map, !map_map.
Qed.

Lemma core_look_up_logs net core_id (self : Extractor) (w : World Table) :
  exists s',
    (if truthy core_id then
       response <- fetch_json (document net) (CORES_URL ++ str core_id) ;;
       match nonempty response with
       | Some response =>
           ret (append_core (get response "block")
                  (get response "reuse_count") (get response "serial") self)
       | None => ret (append_core PyNone PyNone PyNone self)
       end
     else ret (append_core PyNone PyNone PyNone self)) w =
    (Returns s', add_logs (look_up_errors net CORES_URL core_id) w).
Proof. loop_body_logs net CORES_URL core_id w. Qed.

Lemma get_core_data_logs net self raw (w : World Table) :
  raw_data self = Some raw ->
  snd (get_core_data net self w) =
  add_logs
    (flat_map (fun r => look_up_errors net CORES_URL (get (cores r) "core"))
       (map snd raw)) w.
Proof.
  intros Hraw. unfold get_core_data. rewrite Hraw.
  run_loop_logs (fun c => look_up_errors net CORES_URL (get c "core"))
    ltac:(fun x w0 =>
            cbv beta zeta;
            let s1 := fresh "s" in
            let H1 := fresh "Hcore" in
            match goal with
            | |- ex (fun _ => bind _ _ ?w = _) =>
                destruct (core_look_up_logs net (get x "core") s0 w)
                  as [s1 H1]
            end;
            erewrite bind_returns by exact H1;
            eexists; reflexivity).
  now rewrite <- (map_map snd cores), !flat_map_concat_map, !map_map.
Qed.

Lemma enrichment_logs net self raw (w : World Table) :
  raw_data self = Some raw ->
  snd (enrichment net self w) =
  add_logs
    (flat_map (fun r => look_up_errors net ROCKETS_URL (rocket r))
       (map snd raw)
     ++ flat_map (fun r => look_up_errors net LAUNCHPADS_URL (launchpad r))
          (map snd raw)
     ++ flat_map (fun r => look_up_errors net PAYLOADS_URL (payloads r))
          (map snd raw)
     ++ flat_map
          (fun r => look_up_errors net CORES_URL (get (cores r) "core"))
          (map snd raw)) w.
Proof.
  intros Hraw. unfold enrichment.
  destruct (get_booster_version_data_returns net self raw w Hraw)
    as [w1 H1].
  pose proof (get_booster_version_data_logs net self raw w Hraw) as L1.
  rewrite H1 in L1. cbn [snd] in L1. subst w1.
  erewrite bind_returns by exact H1.
  match goal with
  | |- snd (bind (get_launch_site_data net ?s) _ ?w0) = _ =>
      destruct (get_launch_site_data_returns net s raw w0 Hraw) as [w2 H2];
      pose proof (get_launch_site_data_logs net s raw w0 Hraw) as L2
  end.
  rewrite H2 in L2. cbn [snd] in L2. subst w2.
  erewrite bind_returns by exact H2.
  match goal with
  | |- snd (bind (get_payload_data net ?s) _ ?w0) = _ =>
      destruct (get_payload_data_returns net s raw w0 Hraw) as [w3 H3];
      pose proof (get_payload_data_logs net s raw w0 Hraw) as L3
  end.
  rewrite H3 in L3. cbn [snd] in L3. subst w3.
  erewrite bind_returns by exact H3.
  match goal with
  | |- snd (get_core_data net ?s ?w0) = _ =>
      rewrite (get_core_data_logs net s raw w0 Hraw)
  end.
  now rewrite !add_logs_app, <- ?app_assoc.
Qed.

(** X18.  Enrichment returns with [raw_data], the cutoff and
    [processed_data] as they were, and logs exactly the failed requests:
    one error record, naming the URL and the cause, for every row whose id
    is truthy and whose request failed; first those of the rockets, then
    of the launch sites, the payloads and the cores, each group in row
    order.  A falsy id and a request that succeeds log nothing. *)
Theorem enrichment_logs_the_failed_requests net self raw (w : World Table) :
  raw_data self = Some raw ->
  exists self',
    enrichment net self w =
    (Returns self',
     add_logs
       (flat_map (fun r => look_up_errors net ROCKETS_URL (rocket r))
          (map snd raw)
        ++ flat_map
             (fun r => look_up_errors net LAUNCHPADS_URL (launchpad r))
             (map snd raw)
        ++ flat_map (fun r => look_up_errors net PAYLOADS_URL (payloads r))
             (map snd raw)
        ++ flat_map
             (fun r => look_up_errors net CORES_URL (get (cores r) "core"))
             (map snd raw)) w)
    /\ raw_data self' = Some raw
    /\ limit_date self' = limit_date self
    /\ processed_data self' = processed_data self.
Proof.
  intros Hraw.
  destruct (enrichment_returns net self raw w Hraw) as [w' Hrun].
  pose proof (enrichment_logs net self raw w Hraw) as Hlogs.
  rewrite Hrun in Hlogs. cbn [snd] in Hlogs. subst w'.
  eexists. split; [exact Hrun|].
  project_updates. auto.
Qed.

Lemma enrichment_logs_the_failed_requests_witness :
  exists self',
    fst (enrichment sample_network_without_details
           (set_raw_data sample_raw_data (init default_limit_date))
           quiet_world) = Returns self'
    /\ List.length
         (logs (snd (enrichment sample_network_without_details
                       (set_raw_data sample_raw_data
                          (init default_limit_date)) quiet_world))) = 12.
Proof.
  destruct (enrichment_logs_the_failed_requests
              sample_network_without_details
              (set_raw_data sample_raw_data (init default_limit_date))
              sample_raw_data quiet_world eq_refl)
    as (self' & Hrun & _).
  exists self'. rewrite Hrun. split; reflexivity.
Defined.

(** ** Before any listing was fetched *)

(** X19.  On an extractor without [raw_data] each of the four enrichment
    methods logs its error and changes nothing, so enrichment returns the
    extractor as it was, with four error records in call order;
    [_create_dataframe] has no such guard and raises [TypeError]. *)
Theorem enrichment_without_raw_data_changes_nothing net self
  (w : World Table) :
  raw_data self = None ->
  enrichment net self w =
  (Returns self,
   add_logs
     [ {| level := ERROR;
          message := "No launch data available for booster versions." |};
       {| level := ERROR;
          message := "No launch data available for launch sites." |};
       {| level := ERROR;
          message := "No launch data available for payloads." |};
       {| level := ERROR;
          message := "No launch data available for core information." |} ]
     w)
  /\ exists msg,
       _create_dataframe self w = (Raises (TypeError msg), w).
Proof.
  intros Hraw. split.
  - unfold enrichment.
    erewrite bind_returns
      by (unfold get_booster_version_data; rewrite Hraw; reflexivity).
    erewrite bind_returns
      by (unfold get_launch_site_data; rewrite Hraw; reflexivity).
    erewrite bind_returns
      by (unfold get_payload_data; rewrite Hraw; reflexivity).
    unfold get_core_data. rewrite Hraw.
    unfold bind, ret, logging_error, log, logged, add_logs. cbn.
    now rewrite <- !app_assoc.
  - eexists. unfold _create_dataframe. now rewrite Hraw.
Qed.

Lemma enrichment_without_raw_data_changes_nothing_witness :
  fst (enrichment sample_network (init default_limit_date) quiet_world)
  = Returns (init default_limit_date)
  /\ List.length
       (logs (snd (enrichment sample_network (init default_limit_date)
                     quiet_world))) = 4.
Proof.
  destruct (enrichment_without_raw_data_changes_nothing sample_network
              (init default_limit_date) quiet_world eq_refl) as [Hrun _].
  rewrite Hrun. split; reflexivity.
Defined.

End ExtractorProperties.
